(** * Product catalogue handlers (src/handlers.ts)

    A shallow embedding of the five Lambda handlers of the product API
    (createProduct, getProduct, updateProduct, deleteProduct, listProduct),
    of the error classifier handleError and of the helper fetchProductById,
    together with the properties of their request/response contract.

    JavaScript values are an inductive type, objects are association lists
    kept in property order, the DynamoDB table is a finite map from key to
    item, and a handler is a function in a state-and-exception monad over
    the table: [inr r] is a promise resolved with r, [inl e] a promise
    rejected with e.  Console output (console.log, console.info, logger)
    has no effect on any response or on the table and is left out. *)

From Stdlib Require Import Ascii.
From stdpp Require Import gmap strings list pretty.

Set Warnings "-register-all".

Local Open Scope string_scope.

(** ** JavaScript values *)

(** A number is finite and is kept as the text ECMAScript prints for it
    ([String(n)]): the handlers never compute with numbers, they only store
    them and print them back.  A string is a sequence of code units, one [ascii] each. *)
Inductive Value : Type :=
| VUndefined
| VNull
| VBool (b : bool)
| VNumber (repr : string)
| VString (s : string)
| VArray (elems : list Value)
| VObject (props : list (string * Value)).

(** An object: its own enumerable properties, in property order. *)
Definition Obj : Type := list (string * Value).

(** The double quote character, and [js], which writes it as an apostrophe:
    [js "{'a':1}"] is the text [{"a":1}]. *)
Definition dquote : ascii := ascii_of_N 34.

Fixpoint js (s : string) : string :=
  match s with
  | EmptyString => EmptyString
  | String c s' =>
      String (if N.eqb (N_of_ascii c) 39 then dquote else c) (js s')
  end.

(** *** Property keys and property order *)

Definition digit_of (c : ascii) : option N :=
  let n := N_of_ascii c in
  if (48 <=? n)%N && (n <=? 57)%N then Some (n - 48)%N else None.

Fixpoint digits_value (acc : N) (s : string) : option N :=
  match s with
  | EmptyString => Some acc
  | String c s' =>
      match digit_of c with
      | Some d => digits_value (acc * 10 + d)%N s'
      | None => None
      end
  end.

(** [array_index k] is [Some n] when the key k is an array index: the
    canonical decimal text of an integer n below 2^32 - 1.  Such keys come
    first in an object, in ascending order; the other keys follow in the
    order of their creation. *)
Definition array_index (k : string) : option N :=
  match k with
  | EmptyString => None
  | String c rest =>
      if N.eqb (N_of_ascii c) 48 && negb (String.eqb rest EmptyString)
      then None
      else match digits_value 0 k with
           | Some n => if (n <? 4294967295)%N then Some n else None
           | None => None
           end
  end.

Fixpoint obj_get (k : string) (o : Obj) : option Value :=
  match o with
  | [] => None
  | (k', v) :: o' => if String.eqb k k' then Some v else obj_get k o'
  end.

Fixpoint obj_replace (k : string) (v : Value) (o : Obj) : Obj :=
  match o with
  | [] => []
  | (k', v') :: o' =>
      if String.eqb k k' then (k', v) :: o' else (k', v') :: obj_replace k v o'
  end.

Fixpoint obj_insert_index (n : N) (k : string) (v : Value) (o : Obj) : Obj :=
  match o with
  | [] => [(k, v)]
  | (k', v') :: o' =>
      match array_index k' with
      | Some n' =>
          if (n' <? n)%N then (k', v') :: obj_insert_index n k v o'
          else (k, v) :: o
      | None => (k, v) :: o
      end
  end.

(** [obj_set k v o] is the object after [o[k] = v]: an existing property
    keeps its place, a new one is put where property order wants it. *)
Definition obj_set (k : string) (v : Value) (o : Obj) : Obj :=
  match obj_get k o with
  | Some _ => obj_replace k v o
  | None =>
      match array_index k with
      | Some n => obj_insert_index n k v o
      | None => (o ++ [(k, v)])%list
      end
  end.

(** The own enumerable properties an object spread [...v] copies: those of
    an object, the elements of an array and the code units of a string
    under their indices, and nothing for undefined, null, a boolean or a
    number. *)
Fixpoint indexed {A : Type} (i : N) (l : list A) : list (string * A) :=
  match l with
  | [] => []
  | x :: l' => (pretty i, x) :: indexed (N.succ i) l'
  end.

Fixpoint code_units (s : string) : list Value :=
  match s with
  | EmptyString => []
  | String c s' => VString (String c EmptyString) :: code_units s'
  end.

Definition own_props (v : Value) : Obj :=
  match v with
  | VObject o => o
  | VArray l => indexed 0 l
  | VString s => indexed 0 (code_units s)
  | _ => []
  end.

(** [obj_spread o v] continues the object literal that so far holds o with
    the spread [...v]. *)
Definition obj_spread (o : Obj) (v : Value) : Obj :=
  fold_left (fun acc kv => obj_set kv.1 kv.2 acc) (own_props v) o.

(** *** JSON.stringify *)

Definition hex_digit (n : N) : ascii :=
  if (n <? 10)%N then ascii_of_N (48 + n) else ascii_of_N (87 + n).

Definition escape_char (c : ascii) : string :=
  let n := N_of_ascii c in
  if (n =? 34)%N then String "\" (String dquote EmptyString)
  else if (n =? 92)%N then "\\"
  else if (n =? 8)%N then "\b"
  else if (n =? 9)%N then "\t"
  else if (n =? 10)%N then "\n"
  else if (n =? 12)%N then "\f"
  else if (n =? 13)%N then "\r"
  else if (n <? 32)%N then
    "\u00" +:+ String (hex_digit (n / 16)) (String (hex_digit (n mod 16)) EmptyString)
  else String c EmptyString.

Fixpoint escape (s : string) : string :=
  match s with
  | EmptyString => EmptyString
  | String c s' => escape_char c +:+ escape s'
  end.

Definition quote (s : string) : string :=
  String dquote (escape s +:+ String dquote EmptyString).

(** [JSON_stringify v] is [None] when JSON.stringify returns undefined.
    Inside an array undefined prints as null; inside an object a property
    whose value is undefined is left out. *)
Fixpoint JSON_stringify (v : Value) : option string :=
  match v with
  | VUndefined => None
  | VNull => Some "null"
  | VBool b => Some (if b then "true" else "false")
  | VNumber r => Some r
  | VString s => Some (quote s)
  | VArray l =>
      Some ("[" +:+ String.concat ","
              (map (fun x => default "null" (JSON_stringify x)) l) +:+ "]")
  | VObject o =>
      Some ("{" +:+ String.concat ","
              (omap (fun kv =>
                       match JSON_stringify kv.2 with
                       | Some t => Some (quote kv.1 +:+ ":" +:+ t)
                       | None => None
                       end) o) +:+ "}")
  end.

(** [get_prop v k] reads the own property k of a value that is neither
    undefined nor null; a property that is not there reads as undefined. *)
Definition get_prop (v : Value) (k : string) : Value :=
  default VUndefined (obj_get k (own_props v)).

(** ** Exceptions, events and responses *)

Inductive Exn : Type :=
| ValidationError (errors : list string)
| SyntaxError (message : string)
| HttpError (statusCode : Z) (body : Obj)
| TypeError (message : string)
| StoreError (message : string).

(** class HttpError: [super(JSON.stringify(body))] makes the stringified
    body the message of the error. *)
Definition HttpError_message (body : Obj) : string :=
  default "" (JSON_stringify (VObject body)).

(** The member access [v.k], which throws on undefined and null. *)
Definition member (v : Value) (k : string) : Exn + Value :=
  match v with
  | VUndefined =>
      inl (TypeError ("Cannot read properties of undefined (reading '" +:+ k +:+ "')"))
  | VNull =>
      inl (TypeError ("Cannot read properties of null (reading '" +:+ k +:+ "')"))
  | _ => inr (get_prop v k)
  end.

(** The two parts of an APIGatewayProxyEvent the handlers read. *)
Record APIGatewayProxyEvent : Type := mkEvent {
  ev_body : option string;
  pathParameters : option (gmap string string)
}.

(** An APIGatewayProxyResult.  [res_headers] is [None] for a response
    object without a headers property, [res_body] is [None] when
    JSON.stringify gave undefined. *)
Record APIGatewayProxyResult : Type := mkResult {
  statusCode : Z;
  res_headers : option (list (string * string));
  res_body : option string
}.

Definition headers : list (string * string) :=
  [("content-type", "application/json")].

(** [event.pathParameters?.id] *)
Definition path_id (event : APIGatewayProxyEvent) : Value :=
  match pathParameters event with
  | Some ps =>
      match ps !! "id" with
      | Some s => VString s
      | None => VUndefined
      end
  | None => VUndefined
  end.

(** [event.body as string], as JSON.parse reads it: null is read as the
    text null. *)
Definition body_text (event : APIGatewayProxyEvent) : string :=
  default "null" (ev_body event).

(** ** The monad of the handlers

    A computation takes the table and gives a result or an exception,
    and the table after it. *)

Abbreviation Table := (gmap string Obj).

Definition M (A : Type) : Type := Table -> (Exn + A) * Table.

Definition ret {A : Type} (a : A) : M A := fun t => (inr a, t).

Definition throw {A : Type} (e : Exn) : M A := fun t => (inl e, t).

Definition bind {A B : Type} (m : M A) (k : A -> M B) : M B :=
  fun t =>
    match m t with
    | (inr a, t') => k a t'
    | (inl e, t') => (inl e, t')
    end.

Definition lift {A : Type} (r : Exn + A) : M A := fun t => (r, t).

(** try { m } catch (e) { h e } *)
Definition try_catch {A : Type} (m : M A) (h : Exn -> M A) : M A :=
  fun t =>
    match m t with
    | (inr a, t') => (inr a, t')
    | (inl e, t') => h e t'
    end.

(** A call whose promise is dropped without await: whether the promise
    is fulfilled or rejected, the caller goes on, and no try around the call
    sees the rejection.  The one such call in the handlers, the validation
    in updateProduct, does not touch the table.  What the host process does
    about a rejection nobody handles is not part of the handler and not
    part of this model. *)
Definition unawaited {A : Type} (m : M A) : M unit := fun t => (inr tt, t).

(** [preserves P m]: when P holds of the table before m, it holds of the
    table after it, however m ends. *)
Definition preserves {A : Type} (P : Table -> Prop) (m : M A) : Prop :=
  forall t r t', P t -> m t = (r, t') -> P t'.

Declare Scope handler_scope.
Delimit Scope handler_scope with handler.
Notation "x <- m ;; k" := (bind m (fun x => k))
  (at level 100, m at next level, right associativity) : handler_scope.
Notation "m ;;; k" := (bind m (fun _ => k))
  (at level 100, right associativity) : handler_scope.
Local Open Scope handler_scope.

(** ** The store gateway *)

(** Modelled from the spec: the DynamoDB DocumentClient is an external
    service (section 4.2: one collection keyed by productID, a string, with
    get, put, delete and scan).  A key that is not a string is refused by
    the service with an error of its own. *)
Definition docClient_get (key : Value) : M (option Obj) :=
  fun t =>
    match key with
    | VString k => (inr (t !! k), t)
    | _ => (inl (StoreError "ValidationException"), t)
    end.

Definition docClient_put (item : Obj) : M unit :=
  fun t =>
    match obj_get "productID" item with
    | Some (VString k) => (inr tt, <[k := item]> t)
    | _ => (inl (StoreError "ValidationException"), t)
    end.

Definition docClient_delete (key : Value) : M unit :=
  fun t =>
    match key with
    | VString k => (inr tt, delete k t)
    | _ => (inl (StoreError "ValidationException"), t)
    end.

Definition docClient_scan : M Value :=
  fun t =>
    let items := (map_to_list t).*2 in
    let n := VNumber (pretty (length items)) in
    (inr (VObject [("Items", VArray (VObject <$> items));
                   ("Count", n); ("ScannedCount", n)]), t).

(** Every item of the table is stored under its own productID. *)
Definition table_wf (t : Table) : Prop :=
  forall k item, t !! k = Some item -> obj_get "productID" item = Some (VString k).

(** ** The schema validator *)

Inductive FieldType : Type := TString | TNumber | TBool.

#[global] Instance FieldType_eq_dec : EqDecision FieldType.
Proof. solve_decision. Defined.

(** const schema *)
Definition schema : list (string * FieldType) :=
  [("name", TString); ("description", TString);
   ("price", TNumber); ("available", TBool)].

(** Modelled from the spec: yup's validation is an external library
    (section 4.1: presence and type of each field; section 3: name and
    description are non-empty strings).  A field is accepted when it is
    present with a value of its type. *)
Definition field_ok (ty : FieldType) (v : Value) : bool :=
  match ty, v with
  | TString, VString s => negb (String.eqb s EmptyString)
  | TNumber, VNumber _ => true
  | TBool, VBool _ => true
  | _, _ => false
  end.

Definition field_invalid (payload : Value) (f : string * FieldType) : bool :=
  negb (field_ok f.2 (get_prop payload f.1)).

(** The fields of the schema a payload does not satisfy, in schema order. *)
Definition invalid_fields (payload : Value) : list (string * FieldType) :=
  List.filter (field_invalid payload) schema.

Section Handlers.

(** JSON.parse is a service of the JavaScript engine: [inr v] is the value
    a text denotes, [inl msg] the message of the SyntaxError thrown for a
    text that is not JSON. *)
Variable JSON_parse : string -> string + Value.

(** The wording yup gives the error of a failing field, from the name of
    the field, the type it should have and the value found. *)
Variable field_message : string -> FieldType -> Value -> string.

Definition parse (text : string) : M Value :=
  lift (match JSON_parse text with
        | inl msg => inl (SyntaxError msg)
        | inr v => inr v
        end).

(** Modelled from the spec: the errors yup collects with abortEarly false
    (section 4.1: all field errors are collected and reported together),
    one for each field of the schema that is not accepted. *)
Definition field_errors (payload : Value) : list string :=
  map (fun f => field_message f.1 f.2 (get_prop payload f.1))
      (invalid_fields payload).

(** schema.validate(payload, { abortEarly: false }) *)
Definition schema_validate (payload : Value) : M Value :=
  match field_errors payload with
  | [] => ret payload
  | errs => throw (ValidationError errs)
  end.

(** handleError returns a response for the three errors it knows and
    throws every other error again ([inl]). *)
Definition handleError (e : Exn) : Exn + APIGatewayProxyResult :=
  match e with
  | ValidationError errors =>
      inr (mkResult 400 (Some headers)
             (JSON_stringify (VObject [("errors", VArray (VString <$> errors))])))
  | SyntaxError message =>
      inr (mkResult 400 (Some headers)
             (JSON_stringify
                (VObject [("error",
                           VString ("Invalid request body fomrat: "
                                    +:+ String dquote (message +:+ String dquote EmptyString)))])))
  | HttpError statusCode body =>
      inr (mkResult statusCode (Some headers) (Some (HttpError_message body)))
  | _ => inl e
  end.

Definition fetchProductById (id : Value) : M Obj :=
  output <- docClient_get id ;;
  match output with
  | None => throw (HttpError 404 [("error", VString "not found")])
  | Some item => ret item
  end.

(** The object literal [{ productID: v4(), ...reqBody }] of createProduct,
    where uuid is what v4() returned. *)
Definition new_product (uuid : string) (reqBody : Value) : Obj :=
  obj_spread [("productID", VString uuid)] reqBody.

(** The object literal [{ ...reqBody, productID: productID }] of
    updateProduct. *)
Definition replacement_product (reqBody productID : Value) : Obj :=
  obj_set "productID" productID (obj_spread [] reqBody).

(** createProduct; uuid is the identifier v4() generates in this call. *)
Definition createProduct (uuid : string) (event : APIGatewayProxyEvent)
  : M APIGatewayProxyResult :=
  try_catch
    (reqBody <- parse (body_text event) ;;
     _ <- schema_validate reqBody ;;
     let product := new_product uuid reqBody in
     (docClient_put product ;;;
      ret (mkResult 201 (Some headers) (JSON_stringify (VObject product)))))
    (fun err => lift (handleError err)).

(** In the three handlers below a local variable is declared without value
    (undefined), assigned in a try block, and the catch block calls
    handleError and drops what it returns: the try_catch gives the value of
    the variable after the statement. *)
Definition getProduct (event : APIGatewayProxyEvent) : M APIGatewayProxyResult :=
  let id := path_id event in
  product <- try_catch
               (item <- fetchProductById id ;; ret (VObject item))
               (fun err => (lift (handleError err) ;;; ret VUndefined)) ;;
  ret (mkResult 200 (Some headers) (JSON_stringify product)).

Definition updateProduct (event : APIGatewayProxyEvent) : M APIGatewayProxyResult :=
  reqBody <- try_catch
               (reqBody <- parse (body_text event) ;;
                (unawaited (schema_validate reqBody) ;;;
                 ret reqBody))
               (fun e => (lift (handleError e) ;;; ret VUndefined)) ;;
  let id := path_id event in
  outputProduct <- try_catch
                     (item <- fetchProductById id ;; ret (VObject item))
                     (fun err => (lift (handleError err) ;;; ret VUndefined)) ;;
  productID <- lift (member outputProduct "productID") ;;
  let product := replacement_product reqBody productID in
  (docClient_put product ;;;
   ret (mkResult 201 (Some headers) (JSON_stringify (VObject product)))).

(** In deleteProduct the variable is assigned before the delete call; an
    error of that call is none of those handleError returns from, so the
    variable is never read after it. *)
Definition deleteProduct (event : APIGatewayProxyEvent) : M APIGatewayProxyResult :=
  let id := path_id event in
  productToDelete <- try_catch
                       (item <- fetchProductById id ;;
                        (docClient_delete (get_prop (VObject item) "productID") ;;;
                         ret (VObject item)))
                       (fun err => (lift (handleError err) ;;; ret VUndefined)) ;;
  ret (mkResult 204 None
         (JSON_stringify (VObject [("result", VString "delete completed");
                                   ("product", productToDelete)]))).

Definition listProduct (event : APIGatewayProxyEvent) : M APIGatewayProxyResult :=
  output <- docClient_scan ;;
  ret (mkResult 200 (Some headers) (JSON_stringify output)).

(** The value of the variable reqBody of updateProduct after its first try
    statement: what the body parses to, or undefined when it is not JSON. *)
Definition update_payload (event : APIGatewayProxyEvent) : Value :=
  match JSON_parse (body_text event) with
  | inr v => v
  | inl _ => VUndefined
  end.

End Handlers.

(** ** Sample requests

    A JSON.parse restricted to the request bodies of the examples, the
    wording of the messages used in them, and a table holding one product. *)

Definition pen_body : string :=
  js "{'name':'Pen','description':'Blue pen','price':1.5,'available':true}".

Definition pen : Value :=
  VObject [("name", VString "Pen"); ("description", VString "Blue pen");
           ("price", VNumber "1.5"); ("available", VBool true)].

(** The text of the pen once it is stored under the identifier uuid-1. *)
Definition pen_record : string :=
  js "{'productID':'uuid-1','name':'Pen','description':'Blue pen','price':1.5,'available':true}".

Definition forged_body : string :=
  js "{'productID':'chosen-by-caller','name':'Pen','description':'Blue pen','price':1.5,'available':true}".

Definition forged : Value :=
  VObject [("productID", VString "chosen-by-caller");
           ("name", VString "Pen"); ("description", VString "Blue pen");
           ("price", VNumber "1.5"); ("available", VBool true)].

Definition partial_body : string := js "{'name':'Pen','price':'cheap'}".

Definition partial : Value :=
  VObject [("name", VString "Pen"); ("price", VString "cheap")].

Definition sample_parse (text : string) : string + Value :=
  if String.eqb text pen_body then inr pen
  else if String.eqb text forged_body then inr forged
  else if String.eqb text partial_body then inr partial
  else if String.eqb text "{}" then inr (VObject [])
  else if String.eqb text "null" then inr VNull
  else inl "Unexpected end of JSON input".

Definition sample_message (f : string) (ty : FieldType) (v : Value) : string :=
  match v with
  | VUndefined => f +:+ " is a required field"
  | _ => f +:+ " must be a `"
         +:+ match ty with TString => "string" | TNumber => "number" | TBool => "boolean" end
         +:+ "` type"
  end.

Definition request (body : option string) (id : string) : APIGatewayProxyEvent :=
  mkEvent body (Some {[ "id" := id ]}).

Definition stored_pen : Obj :=
  [("productID", VString "p-1"); ("name", VString "Pen");
   ("description", VString "Blue pen"); ("price", VNumber "1.5");
   ("available", VBool true)].

Definition one_pen : Table := {[ "p-1" := stored_pen ]}.




(** ** Requests in sequence

    Each request reaches one handler, which runs on the table the requests
    before it have left.  A call names the handler and gives what it is
    invoked with; a table is reachable when some sequence of calls leads to
    it from the empty table, whatever each call answers. *)

Section Calls.

Variable JSON_parse : string -> string + Value.
Variable field_message : string -> FieldType -> Value -> string.

Inductive Call : Type :=
| CallCreate (uuid : string) (event : APIGatewayProxyEvent)
| CallGet (event : APIGatewayProxyEvent)
| CallUpdate (event : APIGatewayProxyEvent)
| CallDelete (event : APIGatewayProxyEvent)
| CallList (event : APIGatewayProxyEvent).

Definition run_call (c : Call) : M APIGatewayProxyResult :=
  match c with
  | CallCreate uuid event => createProduct JSON_parse field_message uuid event
  | CallGet event => getProduct event
  | CallUpdate event => updateProduct JSON_parse field_message event
  | CallDelete event => deleteProduct event
  | CallList event => listProduct event
  end.

Inductive reachable : Table -> Prop :=
| reachable_empty : reachable ∅
| reachable_call t c r t' :
    reachable t -> run_call c t = (r, t') -> reachable t'.

End Calls.

(** ** The value model on small inputs *)

Example stringify_not_found :
  JSON_stringify (VObject [("error", VString "not found")])
  = Some (js "{'error':'not found'}").
Proof. reflexivity. Qed.

Example stringify_undefined_member :
  JSON_stringify (VObject [("result", VString "delete completed");
                           ("product", VUndefined)])
  = Some (js "{'result':'delete completed'}").
Proof. reflexivity. Qed.

Example spread_string_body :
  obj_set "productID" (VString "p1") (obj_spread [] (VString "ab"))
  = [("0", VString "a"); ("1", VString "b"); ("productID", VString "p1")].
Proof. reflexivity. Qed.

Example spread_index_keys_first :
  obj_spread [("productID", VString "u")]
    (VObject [("2", VNull); ("7", VNull); ("name", VString "Pen")])
  = [("2", VNull); ("7", VNull); ("productID", VString "u");
     ("name", VString "Pen")].
Proof. vm_compute. reflexivity. Qed.

Example array_index_canonical :
  array_index "0" = Some 0%N /\ array_index "01" = None
  /\ array_index "4294967294" = Some 4294967294%N
  /\ array_index "4294967295" = None /\ array_index "name" = None.
Proof. repeat split; reflexivity. Qed.

Example stringify_escapes :
  JSON_stringify (VArray [VString (js "a'b\c"); VUndefined; VNumber "1.5"])
  = Some (js "['a\'b\\c',null,1.5]").
Proof. reflexivity. Qed.

(** ** Objects: reading after writing *)

Section ObjectLemmas.

Implicit Types (k : string) (v : Value) (o : Obj).

Lemma obj_get_replace_eq k v o :
  is_Some (obj_get k o) -> obj_get k (obj_replace k v o) = Some v.
Proof.
  induction o as [|[k' v'] o IH]; simpl; intros Hk.
  - by destruct Hk.
  - destruct (String.eqb_spec k k') as [->|Hne]; simpl.
    + by rewrite String.eqb_refl.
    + destruct (String.eqb_spec k k'); [done|]. by apply IH.
Qed.

Lemma obj_get_replace_ne k k' v o :
  k <> k' -> obj_get k' (obj_replace k v o) = obj_get k' o.
Proof.
  intros Hne. induction o as [|[k1 v1] o IH]; simpl; [done|].
  destruct (String.eqb_spec k k1) as [->|Hk]; simpl.
  - by destruct (String.eqb_spec k' k1).
  - by rewrite IH.
Qed.

Lemma obj_get_insert_index_eq n k v o :
  obj_get k o = None -> obj_get k (obj_insert_index n k v o) = Some v.
Proof.
  induction o as [|[k1 v1] o IH]; simpl; intros Hk.
  - by rewrite String.eqb_refl.
  - destruct (String.eqb_spec k k1) as [->|Hne]; [done|].
    destruct (array_index k1) as [n'|]; [destruct (n' <? n)%N|]; simpl;
      rewrite ?String.eqb_refl; try done.
    destruct (String.eqb_spec k k1); [done|]. by apply IH.
Qed.

Lemma obj_get_insert_index_ne n k k' v o :
  k <> k' -> obj_get k' (obj_insert_index n k v o) = obj_get k' o.
Proof.
  intros Hne. induction o as [|[k1 v1] o IH]; simpl.
  - by destruct (String.eqb_spec k' k).
  - destruct (array_index k1) as [n'|]; [destruct (n' <? n)%N|]; simpl;
      try (by destruct (String.eqb_spec k' k)).
    by rewrite IH.
Qed.

Lemma obj_get_app k o1 o2 :
  obj_get k (o1 ++ o2)%list
  = match obj_get k o1 with Some x => Some x | None => obj_get k o2 end.
Proof.
  induction o1 as [|[k1 v1] o1 IH]; simpl; [done|].
  by destruct (String.eqb k k1).
Qed.

Lemma obj_get_set_eq k v o : obj_get k (obj_set k v o) = Some v.
Proof.
  unfold obj_set. destruct (obj_get k o) as [w|] eqn:Hk.
  - apply obj_get_replace_eq. by rewrite Hk.
  - destruct (array_index k).
    + by apply obj_get_insert_index_eq.
    + rewrite obj_get_app, Hk. simpl. by rewrite String.eqb_refl.
Qed.

Lemma obj_get_set_ne k k' v o :
  k <> k' -> obj_get k' (obj_set k v o) = obj_get k' o.
Proof.
  intros Hne. unfold obj_set. destruct (obj_get k o).
  - by apply obj_get_replace_ne.
  - destruct (array_index k).
    + by apply obj_get_insert_index_ne.
    + rewrite obj_get_app. simpl.
      destruct (String.eqb_spec k' k); [congruence|].
      by destruct (obj_get k' o).
Qed.

Lemma obj_get_None_keys k o : k ∉ o.*1 -> obj_get k o = None.
Proof.
  induction o as [|[k1 v1] o IH]; simpl; [done|].
  rewrite not_elem_of_cons. intros [Hne Hnin].
  destruct (String.eqb_spec k k1); [done|]. by apply IH.
Qed.

(** A spread of properties with distinct keys writes each of them, and
    leaves the other properties of the literal as they are. *)
Lemma obj_get_fold_set k (props : Obj) o :
  NoDup props.*1 ->
  obj_get k (fold_left (fun acc kv => obj_set kv.1 kv.2 acc) props o)
  = match obj_get k props with Some x => Some x | None => obj_get k o end.
Proof.
  revert o. induction props as [|[k1 v1] props IH]; intros o Hnd; simpl; [done|].
  apply NoDup_cons in Hnd as [Hnin Hnd]. simpl in Hnin. rewrite IH by done.
  destruct (String.eqb_spec k k1) as [->|Hne].
  - by rewrite (obj_get_None_keys k1 props Hnin), obj_get_set_eq.
  - rewrite obj_get_set_ne by done. done.
Qed.

(** Without any assumption on the spread: a key it does not write keeps
    its value. *)
Lemma obj_get_fold_set_other k (props : Obj) o :
  obj_get k props = None ->
  obj_get k (fold_left (fun acc kv => obj_set kv.1 kv.2 acc) props o)
  = obj_get k o.
Proof.
  revert o. induction props as [|[k1 v1] props IH]; intros o; simpl; [done|].
  destruct (String.eqb_spec k k1) as [->|Hne]; [done|].
  intros Hk. rewrite IH by done. by apply obj_get_set_ne.
Qed.

End ObjectLemmas.

(** ** Running a handler step by step *)

Section MonadLaws.

Context {A B : Type}.
Implicit Types (m : M A) (f : A -> M B) (h : Exn -> M A) (t : Table).

Lemma bind_inr m f t a t1 : m t = (inr a, t1) -> bind m f t = f a t1.
Proof. unfold bind. by intros ->. Qed.

Lemma bind_inl m f t e t1 : m t = (inl e, t1) -> bind m f t = (inl e, t1).
Proof. unfold bind. by intros ->. Qed.

Lemma try_catch_inr m h t a t1 :
  m t = (inr a, t1) -> try_catch m h t = (inr a, t1).
Proof. unfold try_catch. by intros ->. Qed.

Lemma try_catch_inl m h t e t1 :
  m t = (inl e, t1) -> try_catch m h t = h e t1.
Proof. unfold try_catch. by intros ->. Qed.

(** A computation that ends well went well through both of its parts. *)
Lemma bind_inr_inv m f t b t' :
  bind m f t = (inr b, t') ->
  exists a t1, m t = (inr a, t1) /\ f a t1 = (inr b, t').
Proof.
  unfold bind. destruct (m t) as [[e|a] t1]; intros H; [done|]. by exists a, t1.
Qed.

Lemma try_catch_inr_inv m h t a t' :
  try_catch m h t = (inr a, t') ->
  m t = (inr a, t') \/ exists e t1, m t = (inl e, t1) /\ h e t1 = (inr a, t').
Proof.
  unfold try_catch. destruct (m t) as [[e|a1] t1]; intros H.
  - right. by exists e, t1.
  - by left.
Qed.

End MonadLaws.

Section Preservation.

Context {A B : Type} (P : Table -> Prop).

Lemma preserves_ret (a : A) : preserves P (ret a).
Proof. intros t r t' HP Hrun. unfold ret in Hrun. by simplify_eq. Qed.

Lemma preserves_throw (e : Exn) : preserves P (throw (A := A) e).
Proof. intros t r t' HP Hrun. unfold throw in Hrun. by simplify_eq. Qed.

Lemma preserves_lift (x : Exn + A) : preserves P (lift x).
Proof. intros t r t' HP Hrun. unfold lift in Hrun. by simplify_eq. Qed.

Lemma preserves_unawaited (m : M A) : preserves P (unawaited m).
Proof. intros t r t' HP Hrun. unfold unawaited in Hrun. by simplify_eq. Qed.

Lemma preserves_bind (m : M A) (f : A -> M B) :
  preserves P m -> (forall a, preserves P (f a)) -> preserves P (bind m f).
Proof.
  intros Hm Hf t r t' HP. unfold bind.
  destruct (m t) as [[e|a] t1] eqn:Hrun; intros Hk.
  - simplify_eq. by eapply Hm.
  - eapply Hf; [|done]. by eapply Hm.
Qed.

Lemma preserves_try_catch (m : M A) (h : Exn -> M A) :
  preserves P m -> (forall e, preserves P (h e)) -> preserves P (try_catch m h).
Proof.
  intros Hm Hh t r t' HP. unfold try_catch.
  destruct (m t) as [[e|a] t1] eqn:Hrun; intros Hk.
  - eapply Hh; [|done]. by eapply Hm.
  - simplify_eq. by eapply Hm.
Qed.

End Preservation.

(** ** The table invariant *)

Lemma table_wf_empty : table_wf ∅.
Proof. intros k item Hk. by rewrite lookup_empty in Hk. Qed.

Lemma docClient_put_wf item (t t' : Table) r :
  table_wf t -> docClient_put item t = (r, t') -> table_wf t'.
Proof.
  unfold docClient_put. intros Hwf Hput.
  destruct (obj_get "productID" item) as [[| | | |k| |]|] eqn:Hkey;
    simplify_eq; try done.
  intros k' item' Hk'. destruct (decide (k = k')) as [->|Hne].
  - rewrite lookup_insert_eq in Hk'. by simplify_eq.
  - rewrite lookup_insert_ne in Hk' by done. by apply Hwf.
Qed.

Lemma docClient_delete_wf key (t t' : Table) r :
  table_wf t -> docClient_delete key t = (r, t') -> table_wf t'.
Proof.
  unfold docClient_delete. intros Hwf Hdel.
  destruct key; simplify_eq; try done.
  intros k' item' Hk'. apply lookup_delete_Some in Hk' as [_ Hk']. by apply Hwf.
Qed.

Lemma fetchProductById_spec id (t : Table) :
  fetchProductById id t
  = match id with
    | VString k =>
        match t !! k with
        | Some item => (inr item, t)
        | None => (inl (HttpError 404 [("error", VString "not found")]), t)
        end
    | _ => (inl (StoreError "ValidationException"), t)
    end.
Proof.
  unfold fetchProductById, bind, docClient_get, throw, ret.
  destruct id; try done. by destruct (t !! s).
Qed.

Lemma docClient_get_preserves P key : preserves P (docClient_get key).
Proof.
  intros t r t' HP. unfold docClient_get. destruct key; intros; by simplify_eq.
Qed.

Lemma docClient_scan_preserves P : preserves P docClient_scan.
Proof. intros t r t' HP. unfold docClient_scan. intros; by simplify_eq. Qed.

Lemma fetchProductById_preserves P id : preserves P (fetchProductById id).
Proof.
  apply preserves_bind; [apply docClient_get_preserves|].
  intros [item|]; [apply preserves_ret|apply preserves_throw].
Qed.

Create HintDb handlers.

#[local] Hint Resolve preserves_ret preserves_throw preserves_lift
  preserves_unawaited docClient_get_preserves docClient_scan_preserves
  fetchProductById_preserves : handlers.

#[local] Hint Extern 2 (preserves _ (bind _ _)) =>
  apply preserves_bind; [|intros ?] : handlers.
#[local] Hint Extern 2 (preserves _ (try_catch _ _)) =>
  apply preserves_try_catch; [|intros ?] : handlers.
#[local] Hint Extern 1 (preserves table_wf (docClient_put _)) =>
  (intros ? ? ?; apply docClient_put_wf) : handlers.
#[local] Hint Extern 1 (preserves table_wf (docClient_delete _)) =>
  (intros ? ? ?; apply docClient_delete_wf) : handlers.

(** ** Properties of the handlers *)

Section HandlerProperties.

Variable JSON_parse : string -> string + Value.
Variable field_message : string -> FieldType -> Value -> string.

Implicit Types (event : APIGatewayProxyEvent) (t : Table) (k : string)
  (item : Obj).

(** C1: for a path id that is not in the table, getProduct does not answer
    404: the error response handleError builds is dropped, and the handler
    resolves with status 200, the JSON headers and no body at all
    (JSON.stringify of undefined); the table is as before. *)
Theorem getProduct_absent_id event k t :
  path_id event = VString k ->
  t !! k = None ->
  getProduct event t = (inr (mkResult 200 (Some headers) None), t).
Proof.
  intros Hid Hk. unfold getProduct, try_catch, bind.
  rewrite fetchProductById_spec, Hid, Hk. reflexivity.
Qed.

(** C2: for a path id that is not in the table, updateProduct leaves the
    table as it is but answers no 404: the error response is dropped, the
    member access on the undefined record throws, and the handler is
    rejected with that TypeError. *)
Theorem updateProduct_absent_id event k t :
  path_id event = VString k ->
  t !! k = None ->
  updateProduct JSON_parse field_message event t
  = (inl (TypeError "Cannot read properties of undefined (reading 'productID')"), t).
Proof.
  intros Hid Hk. unfold updateProduct, try_catch, bind, parse, lift, unawaited.
  destruct (JSON_parse (body_text event)); simpl;
    rewrite fetchProductById_spec, Hid, Hk; reflexivity.
Qed.

(** C9: for a path id that is not in the table, deleteProduct does not
    answer 404: it resolves with status 204 and the body of a completed
    delete, without the product; the table is as before. *)
Theorem deleteProduct_absent_id event k t :
  path_id event = VString k ->
  t !! k = None ->
  deleteProduct event t
  = (inr (mkResult 204 None (Some (js "{'result':'delete completed'}"))), t).
Proof.
  intros Hid Hk. unfold deleteProduct, try_catch, bind.
  rewrite fetchProductById_spec, Hid, Hk. reflexivity.
Qed.

(** C10: no response of deleteProduct has headers: whatever the request
    and the table, a response it resolves with has no headers property. *)
Theorem deleteProduct_without_headers event t r t' :
  deleteProduct event t = (inr r, t') ->
  res_headers r = None.
Proof.
  unfold deleteProduct. intros Hrun.
  apply bind_inr_inv in Hrun as (product & t1 & _ & Hret).
  unfold ret in Hret. by simplify_eq.
Qed.

(** What updateProduct does for an id that is in the table, whether the
    body is valid or not: the replacement is stored and returned with
    status 201. *)
Lemma updateProduct_existing event k t item :
  table_wf t ->
  path_id event = VString k ->
  t !! k = Some item ->
  updateProduct JSON_parse field_message event t
  = (inr (mkResult 201 (Some headers)
            (JSON_stringify
               (VObject (replacement_product (update_payload JSON_parse event) (VString k))))),
     <[k := replacement_product (update_payload JSON_parse event) (VString k)]> t).
Proof.
  intros Hwf Hid Hk.
  assert (Hfetch : try_catch
                     (bind (fetchProductById (path_id event))
                           (fun item => ret (VObject item)))
                     (fun err => bind (lift (handleError err))
                                      (fun _ => ret VUndefined)) t
                   = (inr (VObject item), t)).
  { apply try_catch_inr. erewrite bind_inr; [reflexivity|].
    by rewrite fetchProductById_spec, Hid, Hk. }
  assert (Hbody : try_catch
                    (bind (parse JSON_parse (body_text event))
                          (fun reqBody =>
                             bind (unawaited (schema_validate field_message reqBody))
                                  (fun _ => ret reqBody)))
                    (fun e => bind (lift (handleError e))
                                   (fun _ => ret VUndefined)) t
                  = (inr (update_payload JSON_parse event), t)).
  { unfold update_payload, parse, lift.
    destruct (JSON_parse (body_text event)) as [msg|v].
    - erewrite try_catch_inl; [|by apply bind_inl]. reflexivity.
    - apply try_catch_inr. reflexivity. }
  unfold updateProduct.
  erewrite bind_inr by exact Hbody. cbv zeta.
  erewrite bind_inr by exact Hfetch.
  erewrite bind_inr; cycle 1.
  { unfold lift, member, get_prop, own_props. by rewrite (Hwf k item Hk). }
  erewrite bind_inr; cycle 1.
  { unfold docClient_put, replacement_product. by rewrite obj_get_set_eq. }
  reflexivity.
Qed.

(** C5: an update of an id that is in the table stores and returns, with
    status 201, a replacement whose productID is the one of the record that
    was there, whatever the request body holds (a productID of its own
    included): the replacement is the spread of the body with the productID
    of the stored record written over it. *)
Theorem updateProduct_preserves_productID event k t item :
  table_wf t ->
  path_id event = VString k ->
  t !! k = Some item ->
  exists product,
    updateProduct JSON_parse field_message event t
    = (inr (mkResult 201 (Some headers) (JSON_stringify (VObject product))),
       <[k := product]> t)
    /\ product = replacement_product (update_payload JSON_parse event)
                   (get_prop (VObject item) "productID")
    /\ obj_get "productID" product = obj_get "productID" item.
Proof.
  intros Hwf Hid Hk.
  exists (replacement_product (update_payload JSON_parse event) (VString k)).
  split; [by apply (updateProduct_existing event k t item)|].
  unfold get_prop, own_props. rewrite (Hwf k item Hk). split; [done|].
  unfold replacement_product. by rewrite obj_get_set_eq.
Qed.

(** C3: a body that fails the validation does not stop updateProduct:
    the validation is called without await inside the try, so its rejection
    is never caught; for an id that is in the table the invalid body is
    stored in place of the record and the answer is 201, not 400. *)
Theorem updateProduct_invalid_body_is_stored event k t item payload :
  table_wf t ->
  path_id event = VString k ->
  t !! k = Some item ->
  JSON_parse (body_text event) = inr payload ->
  field_errors field_message payload <> [] ->
  updateProduct JSON_parse field_message event t
  = (inr (mkResult 201 (Some headers)
            (JSON_stringify (VObject (replacement_product payload (VString k))))),
     <[k := replacement_product payload (VString k)]> t).
Proof.
  intros Hwf Hid Hk Hparse _.
  rewrite (updateProduct_existing event k t item Hwf Hid Hk).
  unfold update_payload. by rewrite Hparse.
Qed.

(** *** createProduct *)

Lemma get_prop_VString payload f x :
  get_prop payload f = VString x ->
  obj_get f (own_props payload) = Some (VString x).
Proof.
  unfold get_prop. destruct (obj_get f (own_props payload)); simpl; [|done].
  by intros ->.
Qed.

Lemma new_product_get uuid payload f :
  NoDup (own_props payload).*1 ->
  obj_get f (new_product uuid payload)
  = match obj_get f (own_props payload) with
    | Some x => Some x
    | None => obj_get f [("productID", VString uuid)]
    end.
Proof. intros Hnd. unfold new_product, obj_spread. by apply obj_get_fold_set. Qed.

(** A payload that passes the validation is stored under the productID
    of the new object, whatever that is, when it is a string. *)
Lemma createProduct_valid uuid event t payload key :
  JSON_parse (body_text event) = inr payload ->
  field_errors field_message payload = [] ->
  obj_get "productID" (new_product uuid payload) = Some (VString key) ->
  createProduct JSON_parse field_message uuid event t
  = (inr (mkResult 201 (Some headers)
            (JSON_stringify (VObject (new_product uuid payload)))),
     <[key := new_product uuid payload]> t).
Proof.
  intros Hparse Hvalid Hkey. unfold createProduct.
  apply try_catch_inr.
  erewrite bind_inr; cycle 1.
  { unfold parse, lift. by rewrite Hparse. }
  erewrite bind_inr; cycle 1.
  { unfold schema_validate. by rewrite Hvalid. }
  cbv zeta. erewrite bind_inr; cycle 1.
  { unfold docClient_put. by rewrite Hkey. }
  reflexivity.
Qed.

(** C4: a productID in the payload is not ignored.  The spread of the
    payload comes after the generated productID in the object literal, so
    for a valid payload with a productID p of its own the record is stored
    under p and returned with p; nothing is written under the generated
    identifier. *)
Theorem createProduct_payload_productID_wins uuid event t payload p :
  JSON_parse (body_text event) = inr payload ->
  field_errors field_message payload = [] ->
  NoDup (own_props payload).*1 ->
  get_prop payload "productID" = VString p ->
  p <> uuid ->
  createProduct JSON_parse field_message uuid event t
  = (inr (mkResult 201 (Some headers)
            (JSON_stringify (VObject (new_product uuid payload)))),
     <[p := new_product uuid payload]> t)
  /\ obj_get "productID" (new_product uuid payload) = Some (VString p)
  /\ (<[p := new_product uuid payload]> t) !! uuid = t !! uuid.
Proof.
  intros Hparse Hvalid Hnd Hp Hne.
  assert (Hkey : obj_get "productID" (new_product uuid payload) = Some (VString p)).
  { rewrite new_product_get by done. by rewrite (get_prop_VString _ _ _ Hp). }
  split; [by apply createProduct_valid|]. split; [done|].
  by apply lookup_insert_ne.
Qed.

(** For a payload without a productID of its own the record is stored
    under the generated identifier. *)
Lemma createProduct_generated_id uuid event t payload :
  JSON_parse (body_text event) = inr payload ->
  field_errors field_message payload = [] ->
  obj_get "productID" (own_props payload) = None ->
  createProduct JSON_parse field_message uuid event t
  = (inr (mkResult 201 (Some headers)
            (JSON_stringify (VObject (new_product uuid payload)))),
     <[uuid := new_product uuid payload]> t)
  /\ obj_get "productID" (new_product uuid payload) = Some (VString uuid).
Proof.
  intros Hparse Hvalid Hnone.
  assert (Hkey : obj_get "productID" (new_product uuid payload)
                 = Some (VString uuid)).
  { unfold new_product, obj_spread. by rewrite obj_get_fold_set_other. }
  split; [by apply createProduct_valid|done].
Qed.

Lemma getProduct_existing event k t item :
  path_id event = VString k ->
  t !! k = Some item ->
  getProduct event t
  = (inr (mkResult 200 (Some headers) (JSON_stringify (VObject item))), t).
Proof.
  intros Hid Hk. unfold getProduct. cbv zeta.
  erewrite bind_inr; [reflexivity|].
  apply try_catch_inr. erewrite bind_inr; [reflexivity|].
  by rewrite fetchProductById_spec, Hid, Hk.
Qed.

(** C7: the round trip does not add a generated productID to every valid
    payload.  For a valid payload with a productID p of its own, create
    returns p, and the read of p answers 200 with a record whose productID
    is p and not the generated identifier. *)
Theorem create_then_read_caller_id uuid event event' t payload p :
  JSON_parse (body_text event) = inr payload ->
  field_errors field_message payload = [] ->
  NoDup (own_props payload).*1 ->
  get_prop payload "productID" = VString p ->
  p <> uuid ->
  path_id event' = VString p ->
  exists product t',
    createProduct JSON_parse field_message uuid event t
    = (inr (mkResult 201 (Some headers) (JSON_stringify (VObject product))), t')
    /\ getProduct event' t'
       = (inr (mkResult 200 (Some headers) (JSON_stringify (VObject product))), t')
    /\ get_prop (VObject product) "productID" = VString p
    /\ get_prop (VObject product) "productID" <> VString uuid.
Proof.
  intros Hparse Hvalid Hnd Hp Hne Hid.
  assert (Hkey : obj_get "productID" (new_product uuid payload) = Some (VString p)).
  { rewrite new_product_get by done. by rewrite (get_prop_VString _ _ _ Hp). }
  exists (new_product uuid payload), (<[p := new_product uuid payload]> t).
  split; [by apply createProduct_valid|]. split.
  - apply getProduct_existing with (k := p); [done|]. apply lookup_insert_eq.
  - unfold get_prop, own_props. rewrite Hkey. simpl. split; congruence.
Qed.

(** X14: the round trip for a payload that is an object with distinct keys and
    no productID of its own: create answers 201 with the new record, whose
    productID is the generated identifier; the read of that identifier
    answers 200 with the same record; and every other property of the
    record is the one of the payload. *)
Lemma create_then_read_round_trip uuid event event' t payload :
  JSON_parse (body_text event) = inr payload ->
  field_errors field_message payload = [] ->
  NoDup (own_props payload).*1 ->
  obj_get "productID" (own_props payload) = None ->
  path_id event' = VString uuid ->
  exists product t',
    createProduct JSON_parse field_message uuid event t
    = (inr (mkResult 201 (Some headers) (JSON_stringify (VObject product))), t')
    /\ getProduct event' t'
       = (inr (mkResult 200 (Some headers) (JSON_stringify (VObject product))), t')
    /\ get_prop (VObject product) "productID" = VString uuid
    /\ forall f, f <> "productID" ->
         get_prop (VObject product) f = get_prop payload f.
Proof.
  intros Hparse Hvalid Hnd Hnone Hid.
  destruct (createProduct_generated_id uuid event t payload)
    as (Hcreate & Hkey); try done.
  exists (new_product uuid payload), (<[uuid := new_product uuid payload]> t).
  split; [done|]. split; [|split].
  - apply getProduct_existing with (k := uuid); [done|]. apply lookup_insert_eq.
  - unfold get_prop, own_props. by rewrite Hkey.
  - intros f Hf. unfold get_prop at 1. unfold own_props at 1.
    rewrite new_product_get by done. unfold get_prop.
    destruct (obj_get f (own_props payload)); [done|]. simpl.
    by destruct (String.eqb_spec f "productID").
Qed.

Lemma field_errors_length payload :
  length (field_errors field_message payload) = length (invalid_fields payload).
Proof. unfold field_errors. apply length_map. Qed.

Lemma elem_of_invalid_fields payload f :
  f ∈ invalid_fields payload <-> f ∈ schema /\ field_invalid payload f = true.
Proof. unfold invalid_fields. rewrite !list_elem_of_In. apply filter_In. Qed.

Lemma invalid_fields_NoDup payload : NoDup (invalid_fields payload).
Proof.
  unfold invalid_fields. apply NoDup_ListNoDup, List.NoDup_filter, NoDup_ListNoDup.
  apply (bool_decide_unpack _). vm_compute. exact I.
Qed.

(** C6: when the payload of a create request leaves a field of the schema
    out or gives it a value that is not accepted, createProduct answers 400
    with the body {errors: [...]}, stores nothing, and the errors are those
    of all the fields that fail, in schema order, one for each: the list is
    not cut after the first.  A field fails when it is missing (it reads as
    undefined), when its value is not of the type of the field, or when it
    is an empty string. *)
Theorem createProduct_reports_every_invalid_field uuid event t payload f :
  JSON_parse (body_text event) = inr payload ->
  f ∈ schema ->
  field_invalid payload f = true ->
  createProduct JSON_parse field_message uuid event t
  = (inr (mkResult 400 (Some headers)
            (JSON_stringify
               (VObject [("errors",
                          VArray (VString <$> field_errors field_message payload))]))),
     t)
  /\ field_errors field_message payload
     = map (fun g => field_message g.1 g.2 (get_prop payload g.1))
           (invalid_fields payload)
  /\ (forall g, g ∈ invalid_fields payload
                <-> g ∈ schema /\ field_invalid payload g = true)
  /\ NoDup (invalid_fields payload)
  /\ length (field_errors field_message payload)
     = length (invalid_fields payload)
  /\ 0 < length (field_errors field_message payload).
Proof.
  intros Hparse Hf Hbad.
  assert (Hin : f ∈ invalid_fields payload) by by apply elem_of_invalid_fields.
  assert (Hlen : 0 < length (field_errors field_message payload)).
  { rewrite field_errors_length. destruct (invalid_fields payload); simpl; [|lia].
    by apply elem_of_nil in Hin. }
  split; [|split; [done|split; [apply elem_of_invalid_fields|split;
              [apply invalid_fields_NoDup|split;
                 [apply field_errors_length|done]]]]].
  assert (Hthrown : schema_validate field_message payload t
                    = (inl (ValidationError (field_errors field_message payload)), t)).
  { unfold schema_validate.
    destruct (field_errors field_message payload); [simpl in Hlen; lia|done]. }
  unfold createProduct. erewrite try_catch_inl; cycle 1.
  { erewrite bind_inr; cycle 1.
    { unfold parse, lift. by rewrite Hparse. }
    apply bind_inl. exact Hthrown. }
  reflexivity.
Qed.

(** *** Headers *)

Lemma handleError_headers e r :
  handleError e = inr r -> res_headers r = Some headers.
Proof. destruct e; simpl; intros; by simplify_eq. Qed.

Lemma createProduct_headers uuid event t r t' :
  createProduct JSON_parse field_message uuid event t = (inr r, t') ->
  res_headers r = Some headers.
Proof.
  unfold createProduct. intros Hrun.
  apply try_catch_inr_inv in Hrun as [Hrun|(e & t1 & _ & Hrun)].
  - apply bind_inr_inv in Hrun as (reqBody & t1 & _ & Hrun).
    apply bind_inr_inv in Hrun as (? & t2 & _ & Hrun). cbv zeta in Hrun.
    apply bind_inr_inv in Hrun as (? & t3 & _ & Hrun).
    unfold ret in Hrun. by simplify_eq.
  - unfold lift in Hrun. apply (handleError_headers e). by simplify_eq.
Qed.

Lemma getProduct_headers event t r t' :
  getProduct event t = (inr r, t') -> res_headers r = Some headers.
Proof.
  unfold getProduct. intros Hrun.
  apply bind_inr_inv in Hrun as (product & t1 & _ & Hrun).
  unfold ret in Hrun. by simplify_eq.
Qed.

Lemma updateProduct_headers event t r t' :
  updateProduct JSON_parse field_message event t = (inr r, t') ->
  res_headers r = Some headers.
Proof.
  unfold updateProduct. intros Hrun.
  apply bind_inr_inv in Hrun as (reqBody & t1 & _ & Hrun). cbv zeta in Hrun.
  apply bind_inr_inv in Hrun as (outputProduct & t2 & _ & Hrun).
  apply bind_inr_inv in Hrun as (productID & t3 & _ & Hrun).
  apply bind_inr_inv in Hrun as (? & t4 & _ & Hrun).
  unfold ret in Hrun. by simplify_eq.
Qed.

Lemma listProduct_headers event t r t' :
  listProduct event t = (inr r, t') -> res_headers r = Some headers.
Proof.
  unfold listProduct. intros Hrun.
  apply bind_inr_inv in Hrun as (output & t1 & _ & Hrun).
  unfold ret in Hrun. by simplify_eq.
Qed.

(** *** The invariant and the read-only handlers *)

Lemma createProduct_wf uuid event :
  preserves table_wf (createProduct JSON_parse field_message uuid event).
Proof.
  unfold createProduct, parse, schema_validate.
  apply preserves_try_catch; [|auto with handlers].
  apply preserves_bind; [auto with handlers|]. intros reqBody.
  apply preserves_bind; [|auto 6 with handlers].
  destruct (field_errors field_message reqBody); auto with handlers.
Qed.

Lemma updateProduct_wf event :
  preserves table_wf (updateProduct JSON_parse field_message event).
Proof. unfold updateProduct, parse. cbv zeta. auto 10 with handlers. Qed.

Lemma deleteProduct_wf event : preserves table_wf (deleteProduct event).
Proof. unfold deleteProduct. cbv zeta. auto 10 with handlers. Qed.

(** getProduct and listProduct leave the table as it is. *)
Lemma getProduct_preserves P event : preserves P (getProduct event).
Proof. unfold getProduct. cbv zeta. auto 10 with handlers. Qed.

Lemma listProduct_preserves P event : preserves P (listProduct event).
Proof. unfold listProduct. auto 10 with handlers. Qed.

Lemma getProduct_read_only event t r t' : getProduct event t = (r, t') -> t' = t.
Proof. by apply (getProduct_preserves (fun t0 => t0 = t)). Qed.

End HandlerProperties.

(** C8, in the wording of the code: for a body that is not JSON, createProduct answers
    400 with the JSON headers and the body {error: label: "detail"}, where
    label is one fixed text that starts with the words Invalid request body,
    and detail, the message of the parse error, stands between double
    quotes; nothing is stored. *)
Theorem createProduct_malformed_body :
  exists label,
    String.prefix "Invalid request body " label = true /\
    forall JSON_parse field_message uuid event (t : Table) detail,
      JSON_parse (body_text event) = inl detail ->
      createProduct JSON_parse field_message uuid event t
      = (inr (mkResult 400 (Some headers)
                (JSON_stringify
                   (VObject [("error",
                              VString (label +:+ ": "
                                       +:+ String dquote (detail +:+ String dquote EmptyString)))]))),
         t).
Proof.
  exists "Invalid request body fomrat". split; [reflexivity|].
  intros JSON_parse field_message uuid event t detail Hparse.
  unfold createProduct. erewrite try_catch_inl; cycle 1.
  { apply bind_inl. unfold parse, lift. by rewrite Hparse. }
  reflexivity.
Qed.

(** ** The handlers on the sample requests *)

(** The pen of section 8 of the specification: created under the
    generated identifier, read back with the same body, deleted, and then
    read again, where the answer is 200 without a body. *)
Example create_pen :
  createProduct sample_parse sample_message "uuid-1" (mkEvent (Some pen_body) None) ∅
  = (inr (mkResult 201 (Some headers) (Some pen_record)),
     {[ "uuid-1" := new_product "uuid-1" pen ]}).
Proof. vm_compute. reflexivity. Qed.

Example read_pen :
  getProduct (request None "uuid-1") {[ "uuid-1" := new_product "uuid-1" pen ]}
  = (inr (mkResult 200 (Some headers) (Some pen_record)),
     {[ "uuid-1" := new_product "uuid-1" pen ]}).
Proof. vm_compute. reflexivity. Qed.

Example delete_pen :
  deleteProduct (request None "uuid-1") {[ "uuid-1" := new_product "uuid-1" pen ]}
  = (inr (mkResult 204 None
            (Some (js "{'result':'delete completed','product':"
                   +:+ pen_record +:+ "}"))),
     ∅).
Proof. vm_compute. reflexivity. Qed.

Example read_deleted_pen :
  getProduct (request None "uuid-1") ∅
  = (inr (mkResult 200 (Some headers) None), ∅).
Proof. vm_compute. reflexivity. Qed.

Example list_one_pen :
  listProduct (mkEvent None None) one_pen
  = (inr (mkResult 200 (Some headers)
            (Some (js "{'Items':[{'productID':'p-1','name':'Pen','description':'Blue pen','price':1.5,'available':true}],'Count':1,'ScannedCount':1}"))),
     one_pen).
Proof. vm_compute. reflexivity. Qed.

Lemma one_pen_wf : table_wf one_pen.
Proof.
  intros k item Hk. unfold one_pen in Hk.
  apply lookup_singleton_Some in Hk as [<- <-]. reflexivity.
Qed.

Lemma forged_keys_distinct : NoDup (own_props forged).*1.
Proof. apply (bool_decide_unpack _). vm_compute. exact I. Qed.

Lemma getProduct_absent_id_witness :
  path_id (request None "nope") = VString "nope"
  /\ one_pen !! "nope" = None
  /\ getProduct (request None "nope") one_pen
     = (inr (mkResult 200 (Some headers) None), one_pen).
Proof.
  split; [reflexivity|]. split; [reflexivity|].
  apply (getProduct_absent_id (request None "nope") "nope" one_pen); reflexivity.
Defined.

Lemma updateProduct_absent_id_witness :
  path_id (request (Some pen_body) "nope") = VString "nope"
  /\ one_pen !! "nope" = None
  /\ updateProduct sample_parse sample_message (request (Some pen_body) "nope") one_pen
     = (inl (TypeError "Cannot read properties of undefined (reading 'productID')"),
        one_pen).
Proof.
  split; [reflexivity|]. split; [reflexivity|].
  apply (updateProduct_absent_id sample_parse sample_message
           (request (Some pen_body) "nope") "nope" one_pen); reflexivity.
Defined.

Lemma deleteProduct_absent_id_witness :
  path_id (request None "nope") = VString "nope"
  /\ one_pen !! "nope" = None
  /\ deleteProduct (request None "nope") one_pen
     = (inr (mkResult 204 None (Some (js "{'result':'delete completed'}"))), one_pen).
Proof.
  split; [reflexivity|]. split; [reflexivity|].
  apply (deleteProduct_absent_id (request None "nope") "nope" one_pen); reflexivity.
Defined.

Lemma deleteProduct_without_headers_witness :
  deleteProduct (request None "p-1") one_pen
  = (inr (mkResult 204 None
            (Some (js "{'result':'delete completed','product':{'productID':'p-1','name':'Pen','description':'Blue pen','price':1.5,'available':true}}"))),
     delete "p-1" one_pen)
  /\ res_headers
       (mkResult 204 None
          (Some (js "{'result':'delete completed','product':{'productID':'p-1','name':'Pen','description':'Blue pen','price':1.5,'available':true}}")))
     = None.
Proof.
  assert (Hrun : deleteProduct (request None "p-1") one_pen
                 = (inr (mkResult 204 None
                           (Some (js "{'result':'delete completed','product':{'productID':'p-1','name':'Pen','description':'Blue pen','price':1.5,'available':true}}"))),
                    delete "p-1" one_pen)).
  { vm_compute. reflexivity. }
  split; [exact Hrun|].
  exact (deleteProduct_without_headers _ _ _ _ Hrun).
Defined.

Lemma updateProduct_invalid_body_is_stored_witness :
  sample_parse (body_text (request (Some "{}") "p-1")) = inr (VObject [])
  /\ field_errors sample_message (VObject []) <> []
  /\ updateProduct sample_parse sample_message (request (Some "{}") "p-1") one_pen
     = (inr (mkResult 201 (Some headers) (Some (js "{'productID':'p-1'}"))),
        <["p-1" := [("productID", VString "p-1")]]> one_pen).
Proof.
  split; [reflexivity|]. split; [discriminate|].
  apply (updateProduct_invalid_body_is_stored sample_parse sample_message
           (request (Some "{}") "p-1") "p-1" one_pen stored_pen (VObject []));
    [exact one_pen_wf|reflexivity|reflexivity|reflexivity|discriminate].
Defined.

Lemma updateProduct_preserves_productID_witness :
  get_prop (update_payload sample_parse (request (Some forged_body) "p-1")) "productID"
  = VString "chosen-by-caller"
  /\ exists product,
       updateProduct sample_parse sample_message (request (Some forged_body) "p-1") one_pen
       = (inr (mkResult 201 (Some headers) (JSON_stringify (VObject product))),
          <["p-1" := product]> one_pen)
       /\ product = replacement_product
                      (update_payload sample_parse (request (Some forged_body) "p-1"))
                      (get_prop (VObject stored_pen) "productID")
       /\ obj_get "productID" product = obj_get "productID" stored_pen.
Proof.
  split; [reflexivity|].
  apply (updateProduct_preserves_productID sample_parse sample_message
           (request (Some forged_body) "p-1") "p-1" one_pen stored_pen);
    [exact one_pen_wf|reflexivity|reflexivity].
Defined.

Lemma createProduct_payload_productID_wins_witness :
  sample_parse (body_text (mkEvent (Some forged_body) None)) = inr forged
  /\ field_errors sample_message forged = []
  /\ get_prop forged "productID" = VString "chosen-by-caller"
  /\ createProduct sample_parse sample_message "uuid-1" (mkEvent (Some forged_body) None) one_pen
  = (inr (mkResult 201 (Some headers)
            (JSON_stringify (VObject (new_product "uuid-1" forged)))),
     <["chosen-by-caller" := new_product "uuid-1" forged]> one_pen)
  /\ obj_get "productID" (new_product "uuid-1" forged)
     = Some (VString "chosen-by-caller")
  /\ (<["chosen-by-caller" := new_product "uuid-1" forged]> one_pen) !! "uuid-1"
     = one_pen !! "uuid-1".
Proof.
  do 3 (split; [reflexivity|]).
  apply (createProduct_payload_productID_wins sample_parse sample_message
           "uuid-1" (mkEvent (Some forged_body) None) one_pen forged
           "chosen-by-caller");
    [reflexivity|reflexivity|exact forged_keys_distinct|reflexivity|discriminate].
Defined.

Lemma create_then_read_caller_id_witness :
  sample_parse (body_text (mkEvent (Some forged_body) None)) = inr forged
  /\ field_errors sample_message forged = []
  /\ get_prop forged "productID" = VString "chosen-by-caller"
  /\ path_id (request None "chosen-by-caller") = VString "chosen-by-caller"
  /\ exists product t',
    createProduct sample_parse sample_message "uuid-1" (mkEvent (Some forged_body) None) one_pen
    = (inr (mkResult 201 (Some headers) (JSON_stringify (VObject product))), t')
    /\ getProduct (request None "chosen-by-caller") t'
       = (inr (mkResult 200 (Some headers) (JSON_stringify (VObject product))), t')
    /\ get_prop (VObject product) "productID" = VString "chosen-by-caller"
    /\ get_prop (VObject product) "productID" <> VString "uuid-1".
Proof.
  do 4 (split; [reflexivity|]).
  apply (create_then_read_caller_id sample_parse sample_message "uuid-1"
           (mkEvent (Some forged_body) None) (request None "chosen-by-caller")
           one_pen forged "chosen-by-caller");
    [reflexivity|reflexivity|exact forged_keys_distinct|reflexivity|discriminate
    |reflexivity].
Defined.

Lemma createProduct_reports_every_invalid_field_witness :
  sample_parse (body_text (mkEvent (Some partial_body) None)) = inr partial
  /\ field_invalid partial ("description", TString) = true
  /\ field_errors sample_message partial
  = ["description is a required field"; "price must be a `number` type";
     "available is a required field"]
  /\ createProduct sample_parse sample_message "uuid-1" (mkEvent (Some partial_body) None) one_pen
     = (inr (mkResult 400 (Some headers)
               (JSON_stringify
                  (VObject [("errors",
                             VArray (VString <$> field_errors sample_message partial))]))),
        one_pen).
Proof.
  do 3 (split; [reflexivity|]).
  apply (createProduct_reports_every_invalid_field sample_parse sample_message
           "uuid-1" (mkEvent (Some partial_body) None) one_pen partial
           ("description", TString));
    [reflexivity| |reflexivity].
  apply list_elem_of_In. right. left. reflexivity.
Defined.

Lemma createProduct_malformed_body_witness :
  exists label,
    sample_parse (body_text (mkEvent (Some "{") None)) = inl "Unexpected end of JSON input"
    /\ createProduct sample_parse sample_message "uuid-1" (mkEvent (Some "{") None) one_pen
       = (inr (mkResult 400 (Some headers)
                 (JSON_stringify
                    (VObject [("error",
                               VString (label +:+ ": "
                                        +:+ String dquote ("Unexpected end of JSON input"
                                                           +:+ String dquote EmptyString)))]))),
          one_pen).
Proof.
  destruct createProduct_malformed_body as (label & _ & Hlabel).
  exists label. split; [reflexivity|]. apply Hlabel. reflexivity.
Defined.

(** C8, as it is written, fails on the body [{]: the error text of the
    response is not the words Invalid request body format followed by the
    message of the parse error. *)
Lemma createProduct_malformed_body_counterexample :
  sample_parse (body_text (mkEvent (Some "{") None)) = inl "Unexpected end of JSON input"
  /\ createProduct sample_parse sample_message "uuid-1" (mkEvent (Some "{") None) one_pen
     <> (inr (mkResult 400 (Some headers)
                (JSON_stringify
                   (VObject [("error",
                              VString ("Invalid request body format: "
                                       +:+ "Unexpected end of JSON input"))]))),
         one_pen).
Proof.
  split; [reflexivity|].
  assert (Hrun : createProduct sample_parse sample_message "uuid-1"
                   (mkEvent (Some "{") None) one_pen
                 = (inr (mkResult 400 (Some headers)
                           (Some (js "{'error':'Invalid request body fomrat: \'Unexpected end of JSON input\''}"))),
                    one_pen)).
  { vm_compute. reflexivity. }
  rewrite Hrun. vm_compute. intros Heq. discriminate Heq.
Qed.

(** ** Further properties of the handlers *)

Lemma JSON_stringify_object (o : Obj) : is_Some (JSON_stringify (VObject o)).
Proof. simpl. eauto. Qed.

Section HandlerCases.

Variable JSON_parse : string -> string + Value.
Variable field_message : string -> FieldType -> Value -> string.

Implicit Types (event : APIGatewayProxyEvent) (t : Table) (k : string)
  (item : Obj).

(** What createProduct does, case by case. *)
Lemma createProduct_cases uuid event t :
  createProduct JSON_parse field_message uuid event t
  = match JSON_parse (body_text event) with
    | inl msg => (handleError (SyntaxError msg), t)
    | inr payload =>
        match field_errors field_message payload with
        | [] =>
            match obj_get "productID" (new_product uuid payload) with
            | Some (VString key) =>
                (inr (mkResult 201 (Some headers)
                        (JSON_stringify (VObject (new_product uuid payload)))),
                 <[key := new_product uuid payload]> t)
            | _ => (inl (StoreError "ValidationException"), t)
            end
        | e :: errs => (handleError (ValidationError (e :: errs)), t)
        end
    end.
Proof.
  unfold createProduct, try_catch, bind, parse, lift, schema_validate.
  destruct (JSON_parse (body_text event)) as [msg|payload]; [done|].
  destruct (field_errors field_message payload) as [|e errs]; [|done].
  unfold ret, docClient_put.
  by destruct (obj_get "productID" (new_product uuid payload))
    as [[| | | |key| |]|].
Qed.

Lemma getProduct_string_id event k t :
  path_id event = VString k ->
  getProduct event t
  = (inr (mkResult 200 (Some headers)
            match (t !! k : option Obj) with
            | Some item => JSON_stringify (VObject item)
            | None => None
            end), t).
Proof.
  intros Hid. unfold getProduct, try_catch, bind.
  rewrite fetchProductById_spec, Hid. by destruct (t !! k).
Qed.

(** deleteProduct for an id whose record, when there is one, carries that
    id as its productID. *)
Lemma deleteProduct_string_id event k t :
  path_id event = VString k ->
  (forall item, t !! k = Some item ->
                obj_get "productID" item = Some (VString k)) ->
  deleteProduct event t
  = (inr (mkResult 204 None
            (JSON_stringify
               (VObject [("result", VString "delete completed");
                         ("product", match (t !! k : option Obj) with
                                     | Some item => VObject item
                                     | None => VUndefined
                                     end)]))),
     delete k t).
Proof.
  intros Hid Hkey. unfold deleteProduct, try_catch, bind.
  rewrite fetchProductById_spec, Hid.
  destruct (t !! k) as [item|] eqn:Hk.
  - unfold docClient_delete, get_prop, own_props.
    by rewrite (Hkey item eq_refl).
  - simpl. by rewrite delete_id.
Qed.

Lemma updateProduct_missing event k t :
  path_id event = VString k ->
  t !! k = None ->
  updateProduct JSON_parse field_message event t
  = (inl (TypeError "Cannot read properties of undefined (reading 'productID')"), t).
Proof.
  intros Hid Hk. unfold updateProduct, try_catch, bind, parse, lift, unawaited.
  destruct (JSON_parse (body_text event)); simpl;
    rewrite fetchProductById_spec, Hid, Hk; reflexivity.
Qed.

(** A response of updateProduct is always the one after the put. *)
Lemma updateProduct_resolved event t r t' :
  updateProduct JSON_parse field_message event t = (inr r, t') ->
  exists product key,
    obj_get "productID" product = Some (VString key)
    /\ r = mkResult 201 (Some headers) (JSON_stringify (VObject product))
    /\ t' = <[key := product]> t.
Proof.
  unfold updateProduct. intros Hrun.
  apply bind_inr_inv in Hrun as (reqBody & t1 & Hbody & Hrun). cbv zeta in Hrun.
  apply bind_inr_inv in Hrun as (outputProduct & t2 & Hfetch & Hrun).
  apply bind_inr_inv in Hrun as (productID & t3 & Hmember & Hrun).
  apply bind_inr_inv in Hrun as ([] & t4 & Hput & Hrun).
  assert (t1 = t) as ->.
  { eapply (preserves_try_catch (fun t0 => t0 = t)); [| |reflexivity|exact Hbody];
      cbv beta; unfold parse; auto 10 with handlers. }
  assert (t2 = t) as ->.
  { eapply (preserves_try_catch (fun t0 => t0 = t)); [| |reflexivity|exact Hfetch];
      cbv beta; auto 10 with handlers. }
  assert (t3 = t) as -> by (unfold lift in Hmember; by simplify_eq).
  exists (replacement_product reqBody productID).
  unfold docClient_put in Hput.
  destruct (obj_get "productID" (replacement_product reqBody productID))
    as [[| | | |key| |]|] eqn:Hkey; simplify_eq.
  exists key. unfold ret in Hrun. by simplify_eq.
Qed.

End HandlerCases.

Section FurtherProperties.

Variable JSON_parse : string -> string + Value.
Variable field_message : string -> FieldType -> Value -> string.

Implicit Types (event : APIGatewayProxyEvent) (t : Table) (k : string)
  (item : Obj).

(** *** getProduct and listProduct *)

(** X1: the read of an id that is in the table answers 200 with the JSON
    headers and the JSON text of the stored record, which is always there,
    and leaves the table as it is. *)
Theorem getProduct_existing_id event k t item :
  path_id event = VString k ->
  t !! k = Some item ->
  exists text,
    JSON_stringify (VObject item) = Some text
    /\ getProduct event t = (inr (mkResult 200 (Some headers) (Some text)), t).
Proof.
  intros Hid Hk. destruct (JSON_stringify_object item) as [text Htext].
  exists text. split; [done|].
  by rewrite (getProduct_string_id event k t Hid), Hk, Htext.
Qed.

(** X2: getProduct only reads.  However it ends, the table is the one it
    started with; and every response it resolves with has status 200 and
    the JSON headers: it has no other answer. *)
Theorem getProduct_only_reads event t res t' :
  getProduct event t = (res, t') ->
  t' = t
  /\ forall r, res = inr r -> statusCode r = 200%Z /\ res_headers r = Some headers.
Proof.
  intros Hrun. split.
  - by apply (getProduct_preserves (fun t0 => t0 = t) event t res t').
  - intros r ->. unfold getProduct in Hrun.
    apply bind_inr_inv in Hrun as (product & t1 & _ & Hret).
    unfold ret in Hret. by simplify_eq.
Qed.

(** X3: listProduct never fails and never writes: for every event and
    table it answers 200 with the JSON headers and the scan output, whose
    Items are the records of the table, each stored record among them and
    nothing else, and whose Count and ScannedCount are the number of
    records. *)
Theorem listProduct_lists_every_record event t :
  exists items : list Obj,
    listProduct event t
    = (inr (mkResult 200 (Some headers)
              (JSON_stringify
                 (VObject [("Items", VArray (VObject <$> items));
                           ("Count", VNumber (pretty (size t)));
                           ("ScannedCount", VNumber (pretty (size t)))]))),
       t)
    /\ (forall item, item ∈ items <-> exists k, t !! k = Some item)
    /\ length items = size t.
Proof.
  exists ((map_to_list t).*2).
  assert (Hlen : length (map_to_list t).*2 = size t)
    by by rewrite length_fmap, length_map_to_list.
  split; [|split; [|done]].
  - rewrite <- Hlen. reflexivity.
  - intros item. rewrite list_elem_of_fmap. split.
    + intros ([k item'] & -> & Hin). exists k. by apply elem_of_map_to_list.
    + intros [k Hk]. exists (k, item). split; [done|].
      by apply elem_of_map_to_list.
Qed.

(** *** deleteProduct *)

(** X4: the delete of an id that is in the table removes the record and
    answers 204 with the result text and the record that was deleted. *)
Theorem deleteProduct_existing_id event k t item :
  table_wf t ->
  path_id event = VString k ->
  t !! k = Some item ->
  deleteProduct event t
  = (inr (mkResult 204 None
            (JSON_stringify
               (VObject [("result", VString "delete completed");
                         ("product", VObject item)]))),
     delete k t).
Proof.
  intros Hwf Hid Hk.
  rewrite (deleteProduct_string_id event k t Hid) by (intros; by apply Hwf).
  by rewrite Hk.
Qed.

(** X5: for every id, in the table or not, deleteProduct resolves with
    status 204 and the table after it is the table without that id: no
    other record is touched, and a second delete changes nothing. *)
Theorem deleteProduct_removes_only_its_id event k t :
  table_wf t ->
  path_id event = VString k ->
  exists r,
    deleteProduct event t = (inr r, delete k t)
    /\ statusCode r = 204%Z
    /\ deleteProduct event (delete k t)
       = (inr (mkResult 204 None (Some (js "{'result':'delete completed'}"))),
          delete k t).
Proof.
  intros Hwf Hid. eexists. split; [|split].
  - apply (deleteProduct_string_id event k t Hid). intros; by apply Hwf.
  - reflexivity.
  - rewrite (deleteProduct_string_id event k (delete k t) Hid).
    + rewrite lookup_delete_eq. by rewrite delete_id by apply lookup_delete_eq.
    + intros item. by rewrite lookup_delete_eq.
Qed.

(** X6: delete, then read.  After the delete of an id the read of that
    id finds nothing: it answers 200 with the JSON headers and without a
    body. *)
Theorem delete_then_read event event' k t :
  table_wf t ->
  path_id event = VString k ->
  path_id event' = VString k ->
  exists r t',
    deleteProduct event t = (inr r, t')
    /\ t' !! k = None
    /\ getProduct event' t' = (inr (mkResult 200 (Some headers) None), t').
Proof.
  intros Hwf Hid Hid'. eexists _, (delete k t). split; [|split].
  - apply (deleteProduct_string_id event k t Hid). intros; by apply Hwf.
  - apply lookup_delete_eq.
  - by rewrite (getProduct_string_id event' k _ Hid'), lookup_delete_eq.
Qed.

(** *** createProduct *)


(** X8: a response of createProduct has the JSON headers and a body, and
    its status is 201 or 400.  With 201 the body is the text of the new
    record and the table has that record under its productID; with 400 the
    table is as it was. *)
Theorem createProduct_answers_201_or_400 uuid event t r t' :
  createProduct JSON_parse field_message uuid event t = (inr r, t') ->
  res_headers r = Some headers
  /\ is_Some (res_body r)
  /\ ((statusCode r = 201%Z
       /\ exists payload key,
            JSON_parse (body_text event) = inr payload
            /\ obj_get "productID" (new_product uuid payload) = Some (VString key)
            /\ res_body r = JSON_stringify (VObject (new_product uuid payload))
            /\ t' = <[key := new_product uuid payload]> t)
      \/ (statusCode r = 400%Z /\ t' = t)).
Proof.
  rewrite createProduct_cases.
  destruct (JSON_parse (body_text event)) as [msg|payload] eqn:Hparse.
  - simpl. intros Hrun. simplify_eq. simpl. eauto 10.
  - destruct (field_errors field_message payload) as [|e1 errs] eqn:Herrs.
    + destruct (obj_get "productID" (new_product uuid payload))
        as [[| | | |key| |]|] eqn:Hkey; intros Hrun; simplify_eq.
      cbn [res_headers res_body statusCode].
      split; [done|]. split; [apply JSON_stringify_object|].
      left. split; [done|]. by exists payload, key.
    + simpl. intros Hrun. simplify_eq. simpl. eauto 10.
Qed.

(** X9: a create request without a body.  JSON.parse reads the missing
    body as the text null; the value null does not pass the validation, so
    the answer is 400 with the JSON headers and a body {errors: [...]} that
    lists at least one error, and nothing is stored. *)
Theorem createProduct_null_body uuid event t :
  JSON_parse "null" = inr VNull ->
  ev_body event = None ->
  exists errors,
    errors <> []
    /\ createProduct JSON_parse field_message uuid event t
       = (inr (mkResult 400 (Some headers)
                 (JSON_stringify
                    (VObject [("errors", VArray (VString <$> errors))]))),
          t).
Proof.
  intros Hnull Hbody. exists (field_errors field_message VNull).
  split; [discriminate|]. rewrite createProduct_cases.
  unfold body_text. rewrite Hbody. simpl default. rewrite Hnull. reflexivity.
Qed.

(** *** updateProduct *)

(** X10: an update never touches the record of another id: whatever the
    body and however the handler ends, the table after it agrees with the
    table before it on every key but the path id. *)
Theorem updateProduct_touches_only_its_id event k t res t' :
  table_wf t ->
  path_id event = VString k ->
  updateProduct JSON_parse field_message event t = (res, t') ->
  forall k', k' <> k -> t' !! k' = t !! k'.
Proof.
  intros Hwf Hid Hrun k' Hne. destruct (t !! k) as [item|] eqn:Hk.
  - rewrite (updateProduct_existing JSON_parse field_message event k t item)
      in Hrun by done.
    simplify_eq. by apply lookup_insert_ne.
  - rewrite (updateProduct_missing JSON_parse field_message event k t) in Hrun
      by done.
    by simplify_eq.
Qed.

Lemma replacement_product_get (payload productID : Value) f :
  NoDup (own_props payload).*1 ->
  f <> "productID" ->
  obj_get f (replacement_product payload productID)
  = obj_get f (own_props payload).
Proof.
  intros Hnd Hf. unfold replacement_product, obj_spread.
  rewrite obj_get_set_ne by done. rewrite obj_get_fold_set by done.
  by destruct (obj_get f (own_props payload)).
Qed.

(** X11: update replaces the whole record and read returns the
    replacement.  For an id in the table and a body that parses to a payload
    with distinct keys, the record after the update has the productID of the
    path and, for every other property, the value of the payload or none:
    nothing of the old record is merged in.  The read of the id then answers
    200 with that record. *)
Theorem update_then_read event event' k t item payload :
  table_wf t ->
  path_id event = VString k ->
  t !! k = Some item ->
  JSON_parse (body_text event) = inr payload ->
  NoDup (own_props payload).*1 ->
  path_id event' = VString k ->
  exists product,
    updateProduct JSON_parse field_message event t
    = (inr (mkResult 201 (Some headers) (JSON_stringify (VObject product))),
       <[k := product]> t)
    /\ getProduct event' (<[k := product]> t)
       = (inr (mkResult 200 (Some headers) (JSON_stringify (VObject product))),
          <[k := product]> t)
    /\ get_prop (VObject product) "productID" = VString k
    /\ forall f, f <> "productID" ->
         get_prop (VObject product) f = get_prop payload f.
Proof.
  intros Hwf Hid Hk Hparse Hnd Hid'.
  exists (replacement_product payload (VString k)).
  assert (Hpayload : update_payload JSON_parse event = payload)
    by (unfold update_payload; by rewrite Hparse).
  split; [|split; [|split]].
  - rewrite (updateProduct_existing JSON_parse field_message event k t item) by done.
    by rewrite Hpayload.
  - apply (getProduct_existing event' k); [done|]. apply lookup_insert_eq.
  - unfold get_prop, own_props, replacement_product. by rewrite obj_get_set_eq.
  - intros f Hf. unfold get_prop at 1. unfold own_props at 1.
    by rewrite replacement_product_get.
Qed.

(** X12: an update whose body is not JSON still writes.  For an id in
    the table the record is replaced by one that has the productID and
    nothing else, and the answer is 201 with that record. *)
Theorem updateProduct_unparseable_body event k t item msg :
  table_wf t ->
  path_id event = VString k ->
  t !! k = Some item ->
  JSON_parse (body_text event) = inl msg ->
  updateProduct JSON_parse field_message event t
  = (inr (mkResult 201 (Some headers)
            (JSON_stringify (VObject [("productID", VString k)]))),
     <[k := [("productID", VString k)]]> t).
Proof.
  intros Hwf Hid Hk Hparse.
  rewrite (updateProduct_existing JSON_parse field_message event k t item) by done.
  unfold update_payload. by rewrite Hparse.
Qed.

(** X16: the same update twice.  When an update is answered, the same
    request on the table it left gives the same answer and leaves the same
    table. *)
Theorem updateProduct_idempotent event k t r t1 :
  table_wf t ->
  path_id event = VString k ->
  updateProduct JSON_parse field_message event t = (inr r, t1) ->
  updateProduct JSON_parse field_message event t1 = (inr r, t1).
Proof.
  intros Hwf Hid Hrun. destruct (t !! k) as [item|] eqn:Hk.
  - assert (Hwf1 : table_wf t1)
      by exact (updateProduct_wf JSON_parse field_message event t _ t1 Hwf Hrun).
    rewrite (updateProduct_existing JSON_parse field_message event k t item)
      in Hrun by done.
    simplify_eq.
    erewrite (updateProduct_existing JSON_parse field_message event k);
      [|done|done|apply lookup_insert_eq].
    by rewrite insert_insert_eq.
  - rewrite (updateProduct_missing JSON_parse field_message event k t) in Hrun
      by done.
    discriminate.
Qed.

(** X19: updateProduct resolves only after the put: every response has
    status 201, the JSON headers and the text of a record as body, and that
    record is in the table under its productID.  It never answers 400 or
    404. *)
Theorem updateProduct_answers_only_201 event t r t' :
  updateProduct JSON_parse field_message event t = (inr r, t') ->
  statusCode r = 201%Z
  /\ res_headers r = Some headers
  /\ exists product key,
       res_body r = JSON_stringify (VObject product)
       /\ is_Some (res_body r)
       /\ obj_get "productID" product = Some (VString key)
       /\ t' = <[key := product]> t
       /\ t' !! key = Some product.
Proof.
  intros Hrun.
  apply updateProduct_resolved in Hrun as (product & key & Hkey & -> & ->).
  split; [done|]. split; [done|]. exists product, key.
  cbn [res_body]. split; [done|]. split; [apply JSON_stringify_object|].
  split; [done|]. split; [done|]. apply lookup_insert_eq.
Qed.

(** X20: when updateProduct is rejected the table is as it was, and
    the error is a TypeError (no record to take the productID from) or an
    error of the store; a validation error, a syntax error or the not-found
    error never comes out of it. *)
Theorem updateProduct_rejection event t e t' :
  updateProduct JSON_parse field_message event t = (inl e, t') ->
  t' = t
  /\ ((exists message, e = TypeError message)
      \/ (exists message, e = StoreError message)).
Proof.
  unfold updateProduct, try_catch, bind, parse, lift, unawaited.
  destruct (JSON_parse (body_text event)) as [msg|payload]; simpl;
    rewrite fetchProductById_spec;
    (destruct (path_id event) as [| | | |k| |]; simpl;
     [| | | |destruct (t !! k) as [item|]; simpl;
             [unfold docClient_put;
              match goal with
              | |- context [obj_get "productID" ?p] =>
                  destruct (obj_get "productID" p) as [[| | | |key| |]|]
              end|]| |]);
    intros Hrun; simplify_eq; eauto.
Qed.

(** *** Errors *)

(** X17: not found, classified.  For an id that is not in the table
    fetchProductById throws, leaving the table as it is, and handleError
    makes of what it throws the response 404 with the JSON headers and the
    body {"error":"not found"}. *)
Theorem not_found_is_classified_404 k t :
  t !! k = None ->
  exists e,
    fetchProductById (VString k) t = (inl e, t)
    /\ handleError e
       = inr (mkResult 404 (Some headers) (Some (js "{'error':'not found'}"))).
Proof.
  intros Hk. exists (HttpError 404 [("error", VString "not found")]).
  split; [|reflexivity]. by rewrite fetchProductById_spec, Hk.
Qed.

(** X18: what handleError throws is the error it was given, unchanged,
    and that error is neither a validation error, nor a syntax error, nor an
    HttpError: those three always become a response. *)
Theorem handleError_rethrows_unchanged e e' :
  handleError e = inl e' ->
  e' = e
  /\ (forall errors, e <> ValidationError errors)
  /\ (forall message, e <> SyntaxError message)
  /\ (forall status body, e <> HttpError status body).
Proof. destruct e; simpl; intros Hthrow; by simplify_eq. Qed.

(** X21: every response handleError builds has the JSON headers and a
    body.  Its status is 400, or the error is an HttpError and the response
    has the status of the error and, as body, the JSON text of the body the
    error was made with. *)
Theorem handleError_response e r :
  handleError e = inr r ->
  res_headers r = Some headers
  /\ is_Some (res_body r)
  /\ (statusCode r = 400%Z
      \/ exists body,
           e = HttpError (statusCode r) body
           /\ res_body r = JSON_stringify (VObject body)).
Proof.
  destruct e as [errors|message|status body|message|message]; simpl;
    intros Hr; simplify_eq; cbn [res_headers res_body statusCode].
  - split; [done|]. split; [by eexists|]. by left.
  - split; [done|]. split; [by eexists|]. by left.
  - split; [done|]. split; [by eexists|]. right. exists body. split; [done|].
    reflexivity.
Qed.

(** *** Sequences of requests *)

(** X13: every table that a sequence of requests leads to from the
    empty table holds each record under its own productID. *)
Theorem reachable_table_wf t :
  reachable JSON_parse field_message t -> table_wf t.
Proof.
  induction 1 as [|t c r t' _ IH Hrun]; [apply table_wf_empty|].
  destruct c as [uuid event|event|event|event|event]; simpl in Hrun.
  - exact (createProduct_wf JSON_parse field_message uuid event t r t' IH Hrun).
  - exact (getProduct_preserves table_wf event t r t' IH Hrun).
  - exact (updateProduct_wf JSON_parse field_message event t r t' IH Hrun).
  - exact (deleteProduct_wf event t r t' IH Hrun).
  - exact (listProduct_preserves table_wf event t r t' IH Hrun).
Qed.

(** X15: create, then delete.  When the payload is valid and has no
    productID of its own and the generated identifier is not yet in the
    table, the delete of that identifier answers with the created record
    and the table is again the one before the create. *)
Theorem create_then_delete_restores uuid event event' t payload :
  JSON_parse (body_text event) = inr payload ->
  field_errors field_message payload = [] ->
  obj_get "productID" (own_props payload) = None ->
  t !! uuid = None ->
  path_id event' = VString uuid ->
  exists r t1,
    createProduct JSON_parse field_message uuid event t = (inr r, t1)
    /\ t1 !! uuid = Some (new_product uuid payload)
    /\ deleteProduct event' t1
       = (inr (mkResult 204 None
                 (JSON_stringify
                    (VObject [("result", VString "delete completed");
                              ("product", VObject (new_product uuid payload))]))),
          t).
Proof.
  intros Hparse Hvalid Hnone Hfresh Hid'.
  destruct (createProduct_generated_id JSON_parse field_message uuid event t payload)
    as (Hcreate & Hkey); try done.
  eexists _, _. split; [exact Hcreate|]. split; [apply lookup_insert_eq|].
  rewrite (deleteProduct_string_id event' uuid _ Hid').
  - rewrite lookup_insert_eq. by rewrite delete_insert_id.
  - intros item. rewrite lookup_insert_eq. intros; by simplify_eq.
Qed.

End FurtherProperties.

(** ** The further properties on the sample requests *)

Lemma pen_keys_distinct : NoDup (own_props pen).*1.
Proof. apply (bool_decide_unpack _). vm_compute. exact I. Qed.

Lemma getProduct_existing_id_witness :
  path_id (request None "p-1") = VString "p-1"
  /\ one_pen !! "p-1" = Some stored_pen
  /\ exists text,
       JSON_stringify (VObject stored_pen) = Some text
       /\ getProduct (request None "p-1") one_pen
          = (inr (mkResult 200 (Some headers) (Some text)), one_pen).
Proof.
  split; [reflexivity|]. split; [reflexivity|].
  apply (getProduct_existing_id (request None "p-1") "p-1" one_pen stored_pen);
    reflexivity.
Defined.

Lemma getProduct_only_reads_witness :
  getProduct (request None "nope") one_pen
  = (inr (mkResult 200 (Some headers) None), one_pen)
  /\ one_pen = one_pen
  /\ forall r, (inr (mkResult 200 (Some headers) None)
                  : Exn + APIGatewayProxyResult) = inr r ->
               statusCode r = 200%Z /\ res_headers r = Some headers.
Proof.
  assert (Hrun : getProduct (request None "nope") one_pen
                 = (inr (mkResult 200 (Some headers) None), one_pen))
    by (vm_compute; reflexivity).
  split; [exact Hrun|].
  exact (getProduct_only_reads (request None "nope") one_pen _ one_pen Hrun).
Defined.

Lemma deleteProduct_existing_id_witness :
  path_id (request None "p-1") = VString "p-1"
  /\ one_pen !! "p-1" = Some stored_pen
  /\ deleteProduct (request None "p-1") one_pen
     = (inr (mkResult 204 None
               (JSON_stringify
                  (VObject [("result", VString "delete completed");
                            ("product", VObject stored_pen)]))),
        delete "p-1" one_pen).
Proof.
  split; [reflexivity|]. split; [reflexivity|].
  apply (deleteProduct_existing_id (request None "p-1") "p-1" one_pen stored_pen);
    [exact one_pen_wf|reflexivity|reflexivity].
Defined.

Lemma deleteProduct_removes_only_its_id_witness :
  path_id (request None "p-1") = VString "p-1"
  /\ exists r,
       deleteProduct (request None "p-1") one_pen = (inr r, delete "p-1" one_pen)
       /\ statusCode r = 204%Z
       /\ deleteProduct (request None "p-1") (delete "p-1" one_pen)
          = (inr (mkResult 204 None (Some (js "{'result':'delete completed'}"))),
             delete "p-1" one_pen).
Proof.
  split; [reflexivity|].
  apply (deleteProduct_removes_only_its_id (request None "p-1") "p-1" one_pen);
    [exact one_pen_wf|reflexivity].
Defined.

Lemma delete_then_read_witness :
  path_id (request None "p-1") = VString "p-1"
  /\ exists r t',
       deleteProduct (request None "p-1") one_pen = (inr r, t')
       /\ t' !! "p-1" = None
       /\ getProduct (request None "p-1") t'
          = (inr (mkResult 200 (Some headers) None), t').
Proof.
  split; [reflexivity|].
  apply (delete_then_read (request None "p-1") (request None "p-1") "p-1" one_pen);
    [exact one_pen_wf|reflexivity|reflexivity].
Defined.


Lemma createProduct_answers_201_or_400_witness :
  createProduct sample_parse sample_message "uuid-1" (mkEvent (Some pen_body) None) one_pen
  = (inr (mkResult 201 (Some headers) (Some pen_record)),
     <["uuid-1" := new_product "uuid-1" pen]> one_pen)
  /\ res_headers (mkResult 201 (Some headers) (Some pen_record)) = Some headers
  /\ is_Some (res_body (mkResult 201 (Some headers) (Some pen_record))).
Proof.
  assert (Hrun : createProduct sample_parse sample_message "uuid-1"
                   (mkEvent (Some pen_body) None) one_pen
                 = (inr (mkResult 201 (Some headers) (Some pen_record)),
                    <["uuid-1" := new_product "uuid-1" pen]> one_pen))
    by (vm_compute; reflexivity).
  split; [exact Hrun|].
  destruct (createProduct_answers_201_or_400 sample_parse sample_message "uuid-1"
              (mkEvent (Some pen_body) None) one_pen _ _ Hrun)
    as (Hheaders & Hbody & _).
  split; [exact Hheaders|exact Hbody].
Defined.

Lemma createProduct_null_body_witness :
  sample_parse "null" = inr VNull
  /\ ev_body (mkEvent None None) = None
  /\ exists errors,
       errors <> []
       /\ createProduct sample_parse sample_message "uuid-1" (mkEvent None None) one_pen
          = (inr (mkResult 400 (Some headers)
                    (JSON_stringify
                       (VObject [("errors", VArray (VString <$> errors))]))),
             one_pen).
Proof.
  split; [reflexivity|]. split; [reflexivity|].
  apply (createProduct_null_body sample_parse sample_message "uuid-1"
           (mkEvent None None) one_pen); reflexivity.
Defined.

Lemma updateProduct_touches_only_its_id_witness :
  path_id (request (Some forged_body) "p-1") = VString "p-1"
  /\ updateProduct sample_parse sample_message (request (Some forged_body) "p-1")
       (<["p-2" := [("productID", VString "p-2")]]> one_pen)
     = (inr (mkResult 201 (Some headers)
               (JSON_stringify (VObject (replacement_product forged (VString "p-1"))))),
        <["p-1" := replacement_product forged (VString "p-1")]>
          (<["p-2" := [("productID", VString "p-2")]]> one_pen))
  /\ (<["p-1" := replacement_product forged (VString "p-1")]>
        (<["p-2" := [("productID", VString "p-2")]]> one_pen)) !! "p-2"
     = (<["p-2" := [("productID", VString "p-2")]]> one_pen) !! "p-2".
Proof.
  assert (Hwf : table_wf (<["p-2" := [("productID", VString "p-2")]]> one_pen)).
  { apply (docClient_put_wf [("productID", VString "p-2")] one_pen _ (inr tt));
      [exact one_pen_wf|reflexivity]. }
  assert (Hrun : updateProduct sample_parse sample_message
                   (request (Some forged_body) "p-1")
                   (<["p-2" := [("productID", VString "p-2")]]> one_pen)
                 = (inr (mkResult 201 (Some headers)
                           (JSON_stringify
                              (VObject (replacement_product forged (VString "p-1"))))),
                    <["p-1" := replacement_product forged (VString "p-1")]>
                      (<["p-2" := [("productID", VString "p-2")]]> one_pen)))
    by (vm_compute; reflexivity).
  split; [reflexivity|]. split; [exact Hrun|].
  apply (updateProduct_touches_only_its_id sample_parse sample_message
           (request (Some forged_body) "p-1") "p-1" _ _ _ Hwf eq_refl Hrun).
  discriminate.
Defined.

Lemma update_then_read_witness :
  path_id (request (Some pen_body) "p-1") = VString "p-1"
  /\ one_pen !! "p-1" = Some stored_pen
  /\ sample_parse (body_text (request (Some pen_body) "p-1")) = inr pen
  /\ exists product,
       updateProduct sample_parse sample_message (request (Some pen_body) "p-1") one_pen
       = (inr (mkResult 201 (Some headers) (JSON_stringify (VObject product))),
          <["p-1" := product]> one_pen)
       /\ getProduct (request None "p-1") (<["p-1" := product]> one_pen)
          = (inr (mkResult 200 (Some headers) (JSON_stringify (VObject product))),
             <["p-1" := product]> one_pen)
       /\ get_prop (VObject product) "productID" = VString "p-1"
       /\ forall f, f <> "productID" ->
            get_prop (VObject product) f = get_prop pen f.
Proof.
  do 3 (split; [reflexivity|]).
  apply (update_then_read sample_parse sample_message
           (request (Some pen_body) "p-1") (request None "p-1") "p-1" one_pen
           stored_pen pen);
    [exact one_pen_wf|reflexivity|reflexivity|reflexivity
    |exact pen_keys_distinct|reflexivity].
Defined.

Lemma updateProduct_unparseable_body_witness :
  path_id (request (Some "{") "p-1") = VString "p-1"
  /\ one_pen !! "p-1" = Some stored_pen
  /\ sample_parse (body_text (request (Some "{") "p-1"))
     = inl "Unexpected end of JSON input"
  /\ updateProduct sample_parse sample_message (request (Some "{") "p-1") one_pen
     = (inr (mkResult 201 (Some headers) (Some (js "{'productID':'p-1'}"))),
        <["p-1" := [("productID", VString "p-1")]]> one_pen).
Proof.
  do 3 (split; [reflexivity|]).
  apply (updateProduct_unparseable_body sample_parse sample_message
           (request (Some "{") "p-1") "p-1" one_pen stored_pen
           "Unexpected end of JSON input");
    [exact one_pen_wf|reflexivity|reflexivity|reflexivity].
Defined.

Lemma updateProduct_idempotent_witness :
  path_id (request (Some pen_body) "p-1") = VString "p-1"
  /\ updateProduct sample_parse sample_message (request (Some pen_body) "p-1") one_pen
     = (inr (mkResult 201 (Some headers)
               (JSON_stringify (VObject (replacement_product pen (VString "p-1"))))),
        <["p-1" := replacement_product pen (VString "p-1")]> one_pen)
  /\ updateProduct sample_parse sample_message (request (Some pen_body) "p-1")
       (<["p-1" := replacement_product pen (VString "p-1")]> one_pen)
     = (inr (mkResult 201 (Some headers)
               (JSON_stringify (VObject (replacement_product pen (VString "p-1"))))),
        <["p-1" := replacement_product pen (VString "p-1")]> one_pen).
Proof.
  assert (Hrun : updateProduct sample_parse sample_message
                   (request (Some pen_body) "p-1") one_pen
                 = (inr (mkResult 201 (Some headers)
                           (JSON_stringify
                              (VObject (replacement_product pen (VString "p-1"))))),
                    <["p-1" := replacement_product pen (VString "p-1")]> one_pen))
    by (vm_compute; reflexivity).
  split; [reflexivity|]. split; [exact Hrun|].
  exact (updateProduct_idempotent sample_parse sample_message
           (request (Some pen_body) "p-1") "p-1" one_pen _ _
           one_pen_wf eq_refl Hrun).
Defined.

Lemma updateProduct_answers_only_201_witness :
  updateProduct sample_parse sample_message (request (Some pen_body) "p-1") one_pen
  = (inr (mkResult 201 (Some headers)
            (JSON_stringify (VObject (replacement_product pen (VString "p-1"))))),
     <["p-1" := replacement_product pen (VString "p-1")]> one_pen)
  /\ statusCode
       (mkResult 201 (Some headers)
          (JSON_stringify (VObject (replacement_product pen (VString "p-1")))))
     = 201%Z.
Proof.
  assert (Hrun : updateProduct sample_parse sample_message
                   (request (Some pen_body) "p-1") one_pen
                 = (inr (mkResult 201 (Some headers)
                           (JSON_stringify
                              (VObject (replacement_product pen (VString "p-1"))))),
                    <["p-1" := replacement_product pen (VString "p-1")]> one_pen))
    by (vm_compute; reflexivity).
  split; [exact Hrun|].
  exact (proj1 (updateProduct_answers_only_201 sample_parse sample_message
                  (request (Some pen_body) "p-1") one_pen _ _ Hrun)).
Defined.

Lemma updateProduct_rejection_witness :
  updateProduct sample_parse sample_message (request (Some pen_body) "nope") one_pen
  = (inl (TypeError "Cannot read properties of undefined (reading 'productID')"),
     one_pen)
  /\ one_pen = one_pen
  /\ ((exists message,
         TypeError "Cannot read properties of undefined (reading 'productID')"
         = TypeError message)
      \/ (exists message,
            TypeError "Cannot read properties of undefined (reading 'productID')"
            = StoreError message)).
Proof.
  assert (Hrun : updateProduct sample_parse sample_message
                   (request (Some pen_body) "nope") one_pen
                 = (inl (TypeError "Cannot read properties of undefined (reading 'productID')"),
                    one_pen))
    by (vm_compute; reflexivity).
  split; [exact Hrun|].
  exact (updateProduct_rejection sample_parse sample_message
           (request (Some pen_body) "nope") one_pen _ one_pen Hrun).
Defined.

Lemma not_found_is_classified_404_witness :
  one_pen !! "nope" = None
  /\ exists e,
       fetchProductById (VString "nope") one_pen = (inl e, one_pen)
       /\ handleError e
          = inr (mkResult 404 (Some headers) (Some (js "{'error':'not found'}"))).
Proof.
  split; [reflexivity|].
  apply (not_found_is_classified_404 "nope" one_pen). reflexivity.
Defined.

Lemma handleError_rethrows_unchanged_witness :
  handleError (TypeError "boom") = inl (TypeError "boom")
  /\ TypeError "boom" = TypeError "boom"
  /\ (forall errors, TypeError "boom" <> ValidationError errors)
  /\ (forall message, TypeError "boom" <> SyntaxError message)
  /\ (forall status body, TypeError "boom" <> HttpError status body).
Proof.
  split; [reflexivity|].
  apply (handleError_rethrows_unchanged (TypeError "boom") (TypeError "boom")).
  reflexivity.
Defined.

Lemma reachable_table_wf_witness :
  reachable sample_parse sample_message {[ "uuid-1" := new_product "uuid-1" pen ]}
  /\ table_wf {[ "uuid-1" := new_product "uuid-1" pen ]}.
Proof.
  assert (Hreach : reachable sample_parse sample_message
                     {[ "uuid-1" := new_product "uuid-1" pen ]}).
  { apply (reachable_call sample_parse sample_message ∅
             (CallCreate "uuid-1" (mkEvent (Some pen_body) None))
             (inr (mkResult 201 (Some headers) (Some pen_record))));
      [apply reachable_empty|vm_compute; reflexivity]. }
  split; [exact Hreach|].
  exact (reachable_table_wf sample_parse sample_message _ Hreach).
Defined.

Lemma create_then_read_round_trip_witness :
  sample_parse (body_text (mkEvent (Some pen_body) None)) = inr pen
  /\ field_errors sample_message pen = []
  /\ obj_get "productID" (own_props pen) = None
  /\ path_id (request None "uuid-1") = VString "uuid-1"
  /\ exists product t',
       createProduct sample_parse sample_message "uuid-1"
         (mkEvent (Some pen_body) None) one_pen
       = (inr (mkResult 201 (Some headers) (JSON_stringify (VObject product))), t')
       /\ getProduct (request None "uuid-1") t'
          = (inr (mkResult 200 (Some headers) (JSON_stringify (VObject product))), t')
       /\ get_prop (VObject product) "productID" = VString "uuid-1"
       /\ forall f, f <> "productID" ->
            get_prop (VObject product) f = get_prop pen f.
Proof.
  do 4 (split; [reflexivity|]).
  apply (create_then_read_round_trip sample_parse sample_message "uuid-1"
           (mkEvent (Some pen_body) None) (request None "uuid-1") one_pen pen);
    [reflexivity|reflexivity|exact pen_keys_distinct|reflexivity|reflexivity].
Defined.

Lemma create_then_delete_restores_witness :
  sample_parse (body_text (mkEvent (Some pen_body) None)) = inr pen
  /\ field_errors sample_message pen = []
  /\ one_pen !! "uuid-1" = None
  /\ exists r t1,
       createProduct sample_parse sample_message "uuid-1"
         (mkEvent (Some pen_body) None) one_pen = (inr r, t1)
       /\ t1 !! "uuid-1" = Some (new_product "uuid-1" pen)
       /\ deleteProduct (request None "uuid-1") t1
          = (inr (mkResult 204 None
                    (JSON_stringify
                       (VObject [("result", VString "delete completed");
                                 ("product", VObject (new_product "uuid-1" pen))]))),
             one_pen).
Proof.
  do 3 (split; [reflexivity|]).
  apply (create_then_delete_restores sample_parse sample_message "uuid-1"
           (mkEvent (Some pen_body) None) (request None "uuid-1") one_pen pen);
    reflexivity.
Defined.

Lemma handleError_response_witness :
  handleError (HttpError 404 [("error", VString "not found")])
  = inr (mkResult 404 (Some headers) (Some (js "{'error':'not found'}")))
  /\ res_headers (mkResult 404 (Some headers) (Some (js "{'error':'not found'}")))
     = Some headers
  /\ is_Some (res_body (mkResult 404 (Some headers)
                          (Some (js "{'error':'not found'}")))).
Proof.
  assert (Hr : handleError (HttpError 404 [("error", VString "not found")])
               = inr (mkResult 404 (Some headers)
                        (Some (js "{'error':'not found'}"))))
    by reflexivity.
  split; [exact Hr|].
  destruct (handleError_response _ _ Hr) as (Hheaders & Hbody & _).
  split; [exact Hheaders|exact Hbody].
Defined.
